(** * Dialog State Manager (src/dialog/state.js)

    A shallow embedding of the session store of the dialog engine:
    [getState], [setState], [deleteState] and the helpers they are built
    from, over a model of the [dialog_sessions] table, together with the
    JavaScript values and the JSON text the store persists. *)

From Stdlib Require Import ZArith NArith Ascii String Decimal DecimalPos DecimalN DecimalFacts.
From stdpp Require Import gmap strings list.

Local Open Scope char_scope.
Local Open Scope list_scope.

(** ** JavaScript values

    The values a caller can hand to [setState] and the values [JSON.parse]
    builds.  Strings are sequences of code units below 256; numbers are the
    integer-valued ones (a double with a fraction, [NaN] and the infinities
    are outside this model).  An object is the list of its own enumerable
    properties in enumeration order.  A function is opaque: the model has
    no way to call it.  [JSON.stringify] does call a function it finds
    under the key [toJSON], so an object with such a property is outside
    what the serializer below describes; [well_formed] leaves it out. *)

Unset Elimination Schemes.
Inductive JsValue : Type :=
| JUndefined
| JNull
| JBool (b : bool)
| JNumber (n : Z)
| JString (s : string)
| JArray (xs : list JsValue)
| JObject (props : list (string * JsValue))
| JFunction.
Set Elimination Schemes.

Section JsValue_induction.
Variable P : JsValue -> Prop.
Hypothesis Hundef : P JUndefined.
Hypothesis Hnull : P JNull.
Hypothesis Hbool : forall b, P (JBool b).
Hypothesis Hnum : forall n, P (JNumber n).
Hypothesis Hstr : forall s, P (JString s).
Hypothesis Harr : forall xs, Forall P xs -> P (JArray xs).
Hypothesis Hobj : forall props, Forall (fun kv => P (snd kv)) props -> P (JObject props).
Hypothesis Hfun : P JFunction.

Fixpoint JsValue_ind (v : JsValue) : P v :=
  match v with
  | JUndefined => Hundef
  | JNull => Hnull
  | JBool b => Hbool b
  | JNumber n => Hnum n
  | JString s => Hstr s
  | JArray xs =>
      Harr xs ((fix go (l : list JsValue) : Forall P l :=
                  match l with
                  | [] => @List.Forall_nil _ _
                  | x :: l' => @List.Forall_cons _ _ _ _ (JsValue_ind x) (go l')
                  end) xs)
  | JObject props =>
      Hobj props ((fix go (l : list (string * JsValue))
                     : Forall (fun kv => P (snd kv)) l :=
                     match l with
                     | [] => @List.Forall_nil _ _
                     | kv :: l' => @List.Forall_cons _ _ _ _ (JsValue_ind (snd kv)) (go l')
                     end) props)
  | JFunction => Hfun
  end.
End JsValue_induction.

(** lodash's [_.isNil]: [null] or [undefined]. *)
Definition isNil (v : JsValue) : bool :=
  match v with
  | JUndefined | JNull => true
  | _ => false
  end.

(** lodash's [_.isPlainObject]: an object made by the [Object] constructor
    (or with no prototype); arrays, functions and primitives are not. *)
Definition isPlainObject (v : JsValue) : bool :=
  match v with
  | JObject _ => true
  | _ => false
  end.

(** ** JSON text *)

Module JSON.

Definition text := list ascii.

Definition hex_digit (n : N) : ascii :=
  match n with
  | 0 => "0" | 1 => "1" | 2 => "2" | 3 => "3" | 4 => "4"
  | 5 => "5" | 6 => "6" | 7 => "7" | 8 => "8" | 9 => "9"
  | 10 => "a" | 11 => "b" | 12 => "c" | 13 => "d" | 14 => "e"
  | _ => "f"
  end%N.

(** QuoteJSONString, one code unit at a time. *)
Definition escape_char (c : ascii) : text :=
  match c with
  | "008" => ["\"; "b"]
  | "009" => ["\"; "t"]
  | "010" => ["\"; "n"]
  | "012" => ["\"; "f"]
  | "013" => ["\"; "r"]
  | "034" => ["\"; "034"]
  | "\" => ["\"; "\"]
  | _ =>
      let n := N_of_ascii c in
      if (n <? 32)%N
      then ["\"; "u"; "0"; "0"; hex_digit (n / 16); hex_digit (n mod 16)]
      else [c]
  end.

Definition escape (s : text) : text := concat (map escape_char s).

Definition quote (s : string) : text :=
  "034" :: escape (list_ascii_of_string s) ++ ["034"].

Fixpoint show_uint (u : Decimal.uint) : text :=
  match u with
  | Nil => []
  | D0 u => "0" :: show_uint u
  | D1 u => "1" :: show_uint u
  | D2 u => "2" :: show_uint u
  | D3 u => "3" :: show_uint u
  | D4 u => "4" :: show_uint u
  | D5 u => "5" :: show_uint u
  | D6 u => "6" :: show_uint u
  | D7 u => "7" :: show_uint u
  | D8 u => "8" :: show_uint u
  | D9 u => "9" :: show_uint u
  end.

(** Number::toString on a safe integer: the decimal digits, with a sign.
    (From [10^21] up JavaScript writes an exponent; no number of this
    model's range is that large.) *)
Definition number_to_text (n : Z) : text :=
  match n with
  | Z0 => ["0"]
  | Zpos p => show_uint (Pos.to_uint p)
  | Zneg p => "-" :: show_uint (Pos.to_uint p)
  end.

Fixpoint join_comma (parts : list text) : text :=
  match parts with
  | [] => []
  | [p] => p
  | p :: rest => p ++ "," :: join_comma rest
  end.

Definition null_text : text := ["n"; "u"; "l"; "l"].

Fixpoint filter_map {A B} (f : A -> option B) (l : list A) : list B :=
  match l with
  | [] => []
  | x :: l' =>
      match f x with
      | Some y => y :: filter_map f l'
      | None => filter_map f l'
      end
  end.

(** SerializeJSONProperty: [None] is JavaScript's [undefined] result.
    Inside an array an unserializable element is written as [null];
    inside an object such a property is left out.  This is the serializer
    on values it does not call into: for an object with a function under
    [toJSON] the text [JSON.stringify] writes is that function's doing and
    is not what is computed here. *)
Fixpoint serialize (v : JsValue) : option text :=
  match v with
  | JUndefined | JFunction => None
  | JNull => Some null_text
  | JBool true => Some ["t"; "r"; "u"; "e"]
  | JBool false => Some ["f"; "a"; "l"; "s"; "e"]
  | JNumber n => Some (number_to_text n)
  | JString s => Some (quote s)
  | JArray xs =>
      Some ("[" :: join_comma
              (map (fun x => match serialize x with
                             | Some t => t
                             | None => null_text
                             end) xs) ++ ["]"])
  | JObject props =>
      Some ("{" :: join_comma
              (filter_map (fun kv => match serialize (snd kv) with
                                     | Some t => Some (quote (fst kv) ++ ":" :: t)
                                     | None => None
                                     end) props) ++ ["}"])
  end.

(** [JSON.stringify(v)]. *)
Definition stringify (v : JsValue) : option string :=
  match serialize v with
  | Some t => Some (string_of_list_ascii t)
  | None => None
  end.

(** *** Parsing *)

Definition is_ws (c : ascii) : bool :=
  match c with
  | " " | "009" | "010" | "013" => true
  | _ => false
  end.

Fixpoint skip_ws (s : text) : text :=
  match s with
  | c :: r => if is_ws c then skip_ws r else s
  | [] => []
  end.

Definition hex_value (c : ascii) : option N :=
  let n := N_of_ascii c in
  if ((48 <=? n) && (n <=? 57))%N then Some (n - 48)%N
  else if ((97 <=? n) && (n <=? 102))%N then Some (n - 87)%N
  else if ((65 <=? n) && (n <=? 70))%N then Some (n - 55)%N
  else None.

Definition hex4 (a b c d : ascii) : option N :=
  match hex_value a, hex_value b, hex_value c, hex_value d with
  | Some x, Some y, Some z, Some w => Some (((x * 16 + y) * 16 + z) * 16 + w)%N
  | _, _, _, _ => None
  end.

Definition push (c : ascii) (r : option (text * text)) : option (text * text) :=
  match r with
  | Some (str, rest) => Some (c :: str, rest)
  | None => None
  end.

(** The characters of a string literal after its opening quote, up to
    and including the closing quote.  A [\u] escape of a code unit of 256
    or more has no counterpart in this model and is refused. *)
Fixpoint parse_string_body (s : text) : option (text * text) :=
  match s with
  | [] => None
  | "034" :: r => Some ([], r)
  | "\" :: e :: r =>
      match e with
      | "034" => push "034" (parse_string_body r)
      | "\" => push "\" (parse_string_body r)
      | "/" => push "/" (parse_string_body r)
      | "b" => push "008" (parse_string_body r)
      | "f" => push "012" (parse_string_body r)
      | "n" => push "010" (parse_string_body r)
      | "r" => push "013" (parse_string_body r)
      | "t" => push "009" (parse_string_body r)
      | "u" =>
          match r with
          | h1 :: h2 :: h3 :: h4 :: r' =>
              match hex4 h1 h2 h3 h4 with
              | Some n =>
                  if (n <? 256)%N
                  then push (ascii_of_N n) (parse_string_body r')
                  else None
              | None => None
              end
          | _ => None
          end
      | _ => None
      end
  | c :: r =>
      if (N_of_ascii c <? 32)%N then None else push c (parse_string_body r)
  end.

Definition digit (c : ascii) : option (Decimal.uint -> Decimal.uint) :=
  match c with
  | "0" => Some D0 | "1" => Some D1 | "2" => Some D2 | "3" => Some D3
  | "4" => Some D4 | "5" => Some D5 | "6" => Some D6 | "7" => Some D7
  | "8" => Some D8 | "9" => Some D9
  | _ => None
  end.

Fixpoint read_uint (s : text) : Decimal.uint * text :=
  match s with
  | [] => (Nil, [])
  | c :: r =>
      match digit c with
      | Some d => let '(u, rest) := read_uint r in (d u, rest)
      | None => (Nil, s)
      end
  end.

Definition starts_fraction (s : text) : bool :=
  match s with
  | "." :: _ | "e" :: _ | "E" :: _ => true
  | _ => false
  end.

(** A number literal: an optional minus sign, then [0] or digits that do
    not start with [0].  A literal with a fraction or an exponent denotes
    a number outside this model and is refused, where [JSON.parse] reads
    it; an integer literal beyond the safe range is read as it stands,
    where [JSON.parse] rounds it.  Neither is a text the serializer writes
    for a value of the model. *)
Definition parse_number (s : text) : option (JsValue * text) :=
  let '(negative, s1) :=
    match s with
    | "-" :: r => (true, r)
    | _ => (false, s)
    end in
  let '(u, rest) := read_uint s1 in
  match u with
  | Nil => None
  | D0 (D0 _ | D1 _ | D2 _ | D3 _ | D4 _ | D5 _ | D6 _ | D7 _ | D8 _ | D9 _) => None
  | _ =>
      if starts_fraction rest then None
      else Some (JNumber (if negative then - Z.of_uint u else Z.of_uint u)%Z, rest)
  end.

(** CreateDataProperty on the object under construction: a repeated key
    keeps its place and takes the later value.  The members stay in the
    order of the text: that is the object's enumeration order when the
    text lists integer-like keys first and ascending, as the serializer
    does for an object listed in enumeration order. *)
Fixpoint define_property (props : list (string * JsValue)) (k : string) (v : JsValue)
  : list (string * JsValue) :=
  match props with
  | [] => [(k, v)]
  | (k', v') :: rest =>
      if String.eqb k' k then (k', v) :: rest
      else (k', v') :: define_property rest k v
  end.

Definition object_of_members (members : list (string * JsValue)) : list (string * JsValue) :=
  fold_left (fun props kv => define_property props (fst kv) (snd kv)) members [].

Fixpoint parse_value (fuel : nat) (s : text) : option (JsValue * text) :=
  match fuel with
  | O => None
  | S fuel =>
      match skip_ws s with
      | "n" :: "u" :: "l" :: "l" :: r => Some (JNull, r)
      | "t" :: "r" :: "u" :: "e" :: r => Some (JBool true, r)
      | "f" :: "a" :: "l" :: "s" :: "e" :: r => Some (JBool false, r)
      | "034" :: r =>
          match parse_string_body r with
          | Some (str, r') => Some (JString (string_of_list_ascii str), r')
          | None => None
          end
      | "[" :: r =>
          match skip_ws r with
          | "]" :: r' => Some (JArray [], r')
          | _ =>
              match parse_elements fuel r with
              | Some (xs, r') => Some (JArray xs, r')
              | None => None
              end
          end
      | "{" :: r =>
          match skip_ws r with
          | "}" :: r' => Some (JObject [], r')
          | _ =>
              match parse_members fuel r with
              | Some (ms, r') => Some (JObject (object_of_members ms), r')
              | None => None
              end
          end
      | s' => parse_number s'
      end
  end
with parse_elements (fuel : nat) (s : text) : option (list JsValue * text) :=
  match fuel with
  | O => None
  | S fuel =>
      match parse_value fuel s with
      | Some (v, r) =>
          match skip_ws r with
          | "," :: r' =>
              match parse_elements fuel r' with
              | Some (vs, r'') => Some (v :: vs, r'')
              | None => None
              end
          | "]" :: r' => Some ([v], r')
          | _ => None
          end
      | None => None
      end
  end
with parse_members (fuel : nat) (s : text) : option (list (string * JsValue) * text) :=
  match fuel with
  | O => None
  | S fuel =>
      match skip_ws s with
      | "034" :: r =>
          match parse_string_body r with
          | Some (k, r1) =>
              match skip_ws r1 with
              | ":" :: r2 =>
                  match parse_value fuel r2 with
                  | Some (v, r3) =>
                      match skip_ws r3 with
                      | "," :: r4 =>
                          match parse_members fuel r4 with
                          | Some (ms, r5) => Some ((string_of_list_ascii k, v) :: ms, r5)
                          | None => None
                          end
                      | "}" :: r4 => Some ([(string_of_list_ascii k, v)], r4)
                      | _ => None
                      end
                  | None => None
                  end
              | _ => None
              end
          | None => None
          end
      | _ => None
      end
  end.

(** [JSON.parse(s)]; [None] is a thrown [SyntaxError]. *)
Definition parse (s : string) : option JsValue :=
  let t := list_ascii_of_string s in
  match parse_value (S (length t)) t with
  | Some (v, rest) =>
      match skip_ws rest with
      | [] => Some v
      | _ => None
      end
  | None => None
  end.

(** What may follow a value inside a text: the end, or a delimiter. *)
Definition terminated (rest : text) : Prop :=
  match rest with
  | [] => True
  | c :: _ => c = "," \/ c = "]" \/ c = "}"
  end.

(** The characters a serialized value can begin with. *)
Definition value_start (c : ascii) : bool :=
  match c with
  | "n" | "t" | "f" | "034" | "[" | "{" | "-" => true
  | _ => match digit c with Some _ => true | None => false end
  end.

(** Digits as [Number::toString] writes them: at least one, and no
    leading zero except for zero itself. *)
Definition canonical (u : Decimal.uint) : Prop :=
  match u with
  | Nil => False
  | D0 Nil => True
  | D0 _ => False
  | _ => True
  end.

(** The text of an array element, and of an object member. *)
Definition element_text (x : JsValue) : text :=
  match serialize x with
  | Some t => t
  | None => null_text
  end.

Definition member_text (kv : string * JsValue) : text :=
  quote (fst kv) ++ ":" :: element_text (snd kv).

(** [v] is written as a text that starts like a value and that the
    parser, given more fuel than the text is long, reads back as [v],
    leaving what follows untouched. *)
Definition reads_back (v : JsValue) : Prop :=
  exists c t,
    serialize v = Some (c :: t) /\ value_start c = true /\
    forall fuel rest,
      length (c :: t) < fuel -> terminated rest ->
      parse_value fuel (c :: t ++ rest) = Some (v, rest).

End JSON.

(** The values [JSON.stringify] and [JSON.parse] carry back and forth
    unchanged: no [undefined] and no function anywhere inside, numbers
    within the safe integer range, and no key twice in an object. *)
Fixpoint is_json (v : JsValue) : bool :=
  match v with
  | JUndefined | JFunction => false
  | JNull | JBool _ | JString _ => true
  | JNumber n => (Z.abs n <=? 9007199254740991)%Z
  | JArray xs => forallb is_json xs
  | JObject props =>
      bool_decide (NoDup (map fst props)) && forallb (fun kv => is_json (snd kv)) props
  end.

(** A valid state document: a plain object that is JSON all the way down. *)
Definition valid_document (v : JsValue) : bool :=
  isPlainObject v && is_json v.

Local Close Scope char_scope.

(** ** The database *)

Definition Timestamp := Z.

(** Modelled from the spec: the columns of the [dialog_sessions] table,
    whose declaration is not part of this module (Persisted schema: [id]
    text, the primary key; [state] text, the JSON-encoded document;
    [created_on] and [active_on] timestamps).  [sid] is the [id] column; a
    timestamp column holds a value or SQL's [NULL]. *)
Record Session := mkSession {
  sid : string;
  state : string;
  active_on : option Timestamp;
  created_on : option Timestamp
}.

(** How the table's declaration, which is not part of this module, may
    declare a timestamp column that an [INSERT] leaves out: with no default
    (the column is [NULL]), with a constant, or with the time of the
    statement ([DEFAULT CURRENT_TIMESTAMP]). *)
Inductive ColumnDefault : Type :=
| DefaultNull
| DefaultValue (t : Timestamp)
| DefaultNow.

(** The value of such a column in a row inserted at time [now]. *)
Definition column_default (d : ColumnDefault) (now : Timestamp) : option Timestamp :=
  match d with
  | DefaultNull => None
  | DefaultValue t => Some t
  | DefaultNow => Some now
  end.

(** What [db.get()] gives access to: the flavour of the backend
    ([helpers(knex).isLite()]), the reading of [helpers(knex).date.now()],
    and the table.  The table is keyed by [id], its primary key: there is
    at most one row per id.  [created_on_default] is the declared default
    of the [created_on] column, a parameter of the model. *)
Record Db := mkDb {
  isLite : bool;
  created_on_default : ColumnDefault;
  date_now : Timestamp;
  dialog_sessions : gmap string Session
}.

Definition with_sessions (db : Db) (rows : gmap string Session) : Db :=
  {| isLite := isLite db;
     created_on_default := created_on_default db;
     date_now := date_now db;
     dialog_sessions := rows |}.

(** What a call can fail with: [new Error(message)]; the [SyntaxError] of
    [JSON.parse]; the backend refusing an [INSERT] whose key is taken; knex
    refusing a statement one of whose bindings is [undefined]. *)
Inductive Failure : Type :=
| Error (message : string)
| SyntaxError
| UniqueViolation (key : string)
| UndefinedBinding.

(** How a promise settles; [Pending] is a call that has not settled within
    the recursion depth it was given. *)
Inductive Outcome (A : Type) : Type :=
| Resolved (a : A)
| Rejected (e : Failure)
| Pending.
Arguments Resolved {A} a.
Arguments Rejected {A} e.
Arguments Pending {A}.

(** An [async] function body: it runs against the database and settles. *)
Definition Async (A : Type) : Type := Db -> Outcome A * Db.

Definition resolve {A} (a : A) : Async A := fun db => (Resolved a, db).
Definition reject {A} (e : Failure) : Async A := fun db => (Rejected e, db).

(** [await m] followed by the rest of the body. *)
Definition await {A B} (m : Async A) (k : A -> Async B) : Async B :=
  fun db =>
    match m db with
    | (Resolved a, db') => k a db'
    | (Rejected e, db') => (Rejected e, db')
    | (Pending, db') => (Pending, db')
    end.

Notation "x <- m ;; k" := (await m (fun x => k))
  (at level 65, m at next level, right associativity).
Notation "m ;;; k" := (await m (fun _ => k))
  (at level 65, right associativity).

(** A plain (not [async]) function either returns or throws. *)
Inductive Sync (A : Type) : Type :=
| Returns (a : A)
| Throws (e : Failure).
Arguments Returns {A} a.
Arguments Throws {A} e.

(** A caller that awaits the call: a synchronous throw and a rejected
    promise both surface as a failure. *)
Definition call {A} (c : Sync (Async A)) : Async A :=
  match c with
  | Returns m => m
  | Throws e => reject e
  end.

(** *** The statements the module sends *)

(** [knex('dialog_sessions').where({ id }).limit(1).then().get(0)] *)
Definition select_first (stateId : string) : Async (option Session) :=
  fun db => (Resolved (dialog_sessions db !! stateId), db).

(** [knex('dialog_sessions').insert(row)]: refused when the key is taken. *)
Definition insert (row : Session) : Async unit :=
  fun db =>
    match dialog_sessions db !! sid row with
    | Some _ => (Rejected (UniqueViolation (sid row)), db)
    | None => (Resolved tt, with_sessions db (<[sid row := row]> (dialog_sessions db)))
    end.

(** [INSERT OR REPLACE INTO dialog_sessions (id, state, active_on)
     VALUES (:stateId, :state, :now)]: the row with that key, if any, is
    removed and the new one stored; [created_on] is not among the columns
    given and takes the column's declared default, at the time of the
    statement. *)
Definition insert_or_replace (stateId text : string) (now : Timestamp) : Async unit :=
  fun db =>
    let row := {| sid := stateId; state := text;
                  active_on := Some now;
                  created_on := column_default (created_on_default db) now |} in
    (Resolved tt, with_sessions db (<[stateId := row]> (dialog_sessions db))).

(** [INSERT INTO dialog_sessions (id, state, active_on, created_on)
     VALUES (:stateId, :state, :now, :now)
     ON CONFLICT (id) DO UPDATE SET active_on = :now, state = :state] *)
Definition insert_on_conflict_update (stateId text : string) (now : Timestamp) : Async unit :=
  fun db =>
    let row :=
      match dialog_sessions db !! stateId with
      | Some old => {| sid := sid old; state := text;
                       active_on := Some now;
                       created_on := created_on old |}
      | None => {| sid := stateId; state := text;
                   active_on := Some now;
                   created_on := Some now |}
      end in
    (Resolved tt, with_sessions db (<[stateId := row]> (dialog_sessions db))).

(** [knex('dialog_sessions').whereIn('id', states).del()] *)
Definition where_in_del (states : list string) : Async unit :=
  fun db =>
    (Resolved tt,
     with_sessions db (filter (fun kv => fst kv ∉ states) (dialog_sessions db))).

(** ** The module *)

Section DialogStateManager.

(** The [_isExpired] entry of the [internals] argument, when it has one. *)
Variable internals : option (Session -> bool).

(** [Object.assign({ _isExpired: session => false }, internals)] *)
Definition _isExpired (session : Session) : bool :=
  match internals with
  | Some isExpired => isExpired session
  | None => false
  end.

(** The [params] of the statement, then the statement of the backend's
    flavour.  [JSON.stringify] yields a text for every object, so the
    [undefined] binding is out of reach behind [setState]'s guard. *)
Definition _upsertState (stateId : string) (state : JsValue) : Async unit :=
  fun db =>
    match JSON.stringify state with
    | None => reject UndefinedBinding db
    | Some text =>
        let now := date_now db in
        if isLite db
        then insert_or_replace stateId text now db
        else insert_on_conflict_update stateId text now db
    end.

Definition _createEmptyState (stateId : string) : JsValue :=
  JObject [("_stateId", JString stateId)].

Definition _createSession (stateId : string) : Async unit :=
  fun db =>
    let now := date_now db in
    match JSON.stringify (_createEmptyState stateId) with
    | None => reject UndefinedBinding db
    | Some text =>
        insert {| sid := stateId;
                  created_on := Some now;
                  active_on := Some now;
                  state := text |} db
    end.

Definition JSON_parse (s : string) : Async JsValue :=
  match JSON.parse s with
  | Some v => resolve v
  | None => reject SyntaxError
  end.

(** [fuel] bounds the number of nested calls of [getState]. *)
Fixpoint getState (fuel : nat) (stateId : string) : Async JsValue :=
  match fuel with
  | O => fun db => (Pending, db)
  | S fuel =>
      session <- select_first stateId ;;
      match session with
      | Some session =>
          if _isExpired session then
            _createSession stateId ;;; getState fuel stateId
          else
            JSON_parse (state session)
      | None =>
          _createSession stateId ;;; getState fuel stateId
      end
  end.

Definition setState (stateId : string) (state : JsValue) : Sync (Async unit) :=
  let state := if isNil state then _createEmptyState stateId else state in
  if negb (isPlainObject state)
  then Throws (Error "State must be a plain object")
  else Returns (_upsertState stateId state).

(** [[stateId, ...substates.map(x => `${stateId}___${x}`)]] *)
Definition states (stateId : string) (substates : list string) : list string :=
  stateId :: map (fun x => stateId +:+ "___" +:+ x) substates.

(** [substates = None] is the call that leaves the argument out. *)
Definition deleteState (stateId : string) (substates : option (list string)) : Async unit :=
  let substates := match substates with Some l => l | None => ["context"] end in
  where_in_del (states stateId substates).

End DialogStateManager.

(** The table's integrity: every row is stored under its own [id]. *)
Definition well_keyed (db : Db) : Prop :=
  forall k row, dialog_sessions db !! k = Some row -> sid row = k.

(** ** Sample data *)

Definition always_expired : option (Session -> bool) := Some (fun _ => true).

Definition conv1_document : JsValue :=
  JObject [("_stateId", JString "conv1"); ("step", JNumber 3)].

Definition conv1_text : string :=
  Eval vm_compute in
    match JSON.stringify conv1_document with
    | Some t => t
    | None => EmptyString
    end.

Definition conv1_row : Session :=
  mkSession "conv1" conv1_text (Some 10%Z) (Some 10%Z).

(** A database at time 20 whose table holds one session, written at time 10;
    the schema declares no default for [created_on]. *)
Definition conv1_db (lite : bool) : Db :=
  mkDb lite DefaultNull 20%Z {["conv1" := conv1_row]}.


Definition empty_db (lite : bool) : Db := mkDb lite DefaultNull 20%Z ∅.

Definition nested_document : JsValue :=
  JObject [("a", JObject [("b", JArray [JNumber 1; JNumber 2; JNumber 3])])].

(** ** What JSON carries of an arbitrary value *)

(** The values [JSON.stringify] does write: all but [undefined] and
    functions. *)
Definition is_defined (v : JsValue) : bool :=
  match v with
  | JUndefined | JFunction => false
  | _ => true
  end.

(** The value that comes back from the text of [v], for a [v] the
    serializer does not call into: a property whose value is not written
    is gone, an array element that is not written is [null]. *)
Fixpoint to_json (v : JsValue) : JsValue :=
  match v with
  | JUndefined | JFunction => JNull
  | JNull | JBool _ | JNumber _ | JString _ => v
  | JArray xs => JArray (map to_json xs)
  | JObject props =>
      JObject (JSON.filter_map
                 (fun kv => if is_defined (snd kv)
                            then Some (fst kv, to_json (snd kv))
                            else None) props)
  end.

(** An integer-like key, as JavaScript orders properties: the decimal
    digits, with no leading zero, of an integer below [2^32 - 1]. *)
Definition array_index (k : string) : option N :=
  match JSON.read_uint (list_ascii_of_string k) with
  | (Nil, _) => None
  | (D0 Nil, []) => Some 0%N
  | (D0 _, _) => None
  | (u, []) => if (N.of_uint u <? 4294967295)%N then Some (N.of_uint u) else None
  | (_, _ :: _) => None
  end.

(** The order in which an object lists its keys: the integer-like ones
    first, ascending, then the others as they were added.  [last] is the
    integer-like key seen last. *)
Fixpoint enumeration_order (last : option N) (keys : list string) : bool :=
  match keys with
  | [] => true
  | k :: rest =>
      match array_index k with
      | Some n =>
          match last with
          | Some m => (m <? n)%N
          | None => true
          end && enumeration_order (Some n) rest
      | None =>
          forallb (fun k' => match array_index k' with
                             | Some _ => false
                             | None => true
                             end) rest
      end
  end.

(** A function under the key [toJSON]: [JSON.stringify] would call it. *)
Definition has_toJSON (props : list (string * JsValue)) : bool :=
  existsb (fun kv => String.eqb (fst kv) "toJSON"
                     && match snd kv with JFunction => true | _ => false end) props.

(** The values of this model that stand for a JavaScript value the
    serializer above describes: at every depth an object has each key
    once, lists its keys in enumeration order and has no function under
    [toJSON], and a number is a safe integer. *)
Fixpoint well_formed (v : JsValue) : bool :=
  match v with
  | JUndefined | JFunction | JNull | JBool _ | JString _ => true
  | JNumber n => (Z.abs n <=? 9007199254740991)%Z
  | JArray xs => forallb well_formed xs
  | JObject props =>
      bool_decide (NoDup (map fst props))
      && enumeration_order None (map fst props)
      && negb (has_toJSON props)
      && forallb (fun kv => well_formed (snd kv)) props
  end.

(** ** The module in use

    A use of the public surface by the dialog engine: the three
    operations, and time passing between two of them. *)
Inductive Call : Type :=
| GetState (fuel : nat) (stateId : string)
| SetState (stateId : string) (state : JsValue)
| DeleteState (stateId : string) (substates : option (list string))
| Tick (now : Timestamp).

Definition with_clock (db : Db) (now : Timestamp) : Db :=
  {| isLite := isLite db;
     created_on_default := created_on_default db;
     date_now := now;
     dialog_sessions := dialog_sessions db |}.

(** The database a call leaves behind, whether it resolves or fails. *)
Definition perform (internals : option (Session -> bool)) (c : Call) (db : Db) : Db :=
  match c with
  | GetState fuel stateId => snd (getState internals fuel stateId db)
  | SetState stateId state => snd (call (setState stateId state) db)
  | DeleteState stateId substates => snd (deleteState stateId substates db)
  | Tick now => with_clock db now
  end.

Definition run (internals : option (Session -> bool)) (calls : list Call) (db : Db) : Db :=
  fold_left (fun db c => perform internals c db) calls db.

(** The documents a call hands over are values of JavaScript. *)
Definition call_well_formed (c : Call) : bool :=
  match c with
  | SetState _ state => well_formed state
  | _ => true
  end.

(** A text [JSON.parse] reads as a plain object. *)
Definition object_text (text : string) : Prop :=
  exists document, JSON.parse text = Some document /\ isPlainObject document = true.

(** Every stored text is the text of a plain object. *)
Definition rows_parse (db : Db) : Prop :=
  forall k row, dialog_sessions db !! k = Some row -> object_text (state row).

(** The row [_createSession] inserts for [stateId] at time [now]. *)
Definition default_text (stateId : string) : string :=
  match JSON.stringify (_createEmptyState stateId) with
  | Some text => text
  | None => EmptyString
  end.

Definition fresh_session (stateId : string) (now : Timestamp) : Session :=
  {| sid := stateId;
     created_on := Some now;
     active_on := Some now;
     state := default_text stateId |}.

(** The clock never runs backwards over a sequence of calls started at
    time [now]. *)
Fixpoint monotone (now : Timestamp) (calls : list Call) : bool :=
  match calls with
  | [] => true
  | Tick t :: rest => (now <=? t)%Z && monotone t rest
  | _ :: rest => monotone now rest
  end.

(** Every row carries both timestamps, in order, and none from the
    future. *)
Definition timestamps_ordered (db : Db) : Prop :=
  forall k row,
    dialog_sessions db !! k = Some row ->
    exists c a,
      created_on row = Some c /\ active_on row = Some a /\
      (c <= a)%Z /\ (a <= date_now db)%Z.

(** A document with parts JSON does not carry, and a session of the
    module in use. *)
Definition lossy_document : list (string * JsValue) :=
  [("seen", JUndefined);
   ("steps", JArray [JNumber 1; JFunction; JNull]);
   ("user", JObject [("name", JString "ann"); ("hook", JFunction)])].

Definition sample_calls : list Call :=
  [GetState 2 "conv1";
   Tick 30%Z;
   SetState "conv1" (JObject lossy_document);
   SetState "conv1___context" JNull;
   Tick 40%Z;
   SetState "conv1" (JObject [("step", JNumber 2)]);
   DeleteState "conv1" None;
   SetState "conv2" (JNumber 7);
   GetState 2 "conv1"].

(** A sequence that leaves three conversations in the table, one of them
    written from a document with parts JSON does not carry. *)
Definition busy_calls : list Call :=
  [SetState "conv1" (JObject lossy_document);
   Tick 30%Z;
   GetState 2 "conv2";
   SetState "conv1___context" (JObject [("0", JBool true); ("slots", JArray [])]);
   SetState "conv3" (JArray [JNumber 1]);
   DeleteState "conv3" (Some [])].

(** * Properties *)

(** ** JSON text: what is written is read back *)

Module JSONFacts.
Import JSON.
Local Open Scope char_scope.

Lemma skip_ws_start c s : is_ws c = false -> skip_ws (c :: s) = c :: s.
Proof. intros H. simpl. now rewrite H. Qed.

Lemma parse_escape_char c tail :
  parse_string_body (escape_char c ++ tail) = push c (parse_string_body tail).
Proof. destruct c as [[] [] [] [] [] [] [] []]; reflexivity. Qed.

Lemma parse_escape s rest :
  parse_string_body (escape s ++ "034" :: rest) = Some (s, rest).
Proof.
  induction s as [|c s IH]; [reflexivity|].
  unfold escape in *. cbn [map concat]. rewrite <- app_assoc.
  rewrite parse_escape_char, IH. reflexivity.
Qed.

Lemma parse_quote k rest :
  match quote k ++ rest with
  | "034" :: r => parse_string_body r
  | _ => None
  end = Some (list_ascii_of_string k, rest).
Proof.
  unfold quote. cbn [app]. rewrite <- app_assoc. cbn [app].
  apply parse_escape.
Qed.

Lemma terminated_no_digit rest :
  terminated rest -> match rest with [] => True | c :: _ => digit c = None end.
Proof. destruct rest as [|c r]; [trivial|]. intros [-> | [-> | ->]]; reflexivity. Qed.

Lemma terminated_no_fraction rest : terminated rest -> starts_fraction rest = false.
Proof. destruct rest as [|c r]; [trivial|]. intros [-> | [-> | ->]]; reflexivity. Qed.

Lemma read_uint_stop rest :
  match rest with [] => True | c :: _ => digit c = None end ->
  read_uint rest = (Nil, rest).
Proof. destruct rest as [|c r]; [trivial|]. intros H. simpl. now rewrite H. Qed.

Lemma read_uint_show u rest :
  match rest with [] => True | c :: _ => digit c = None end ->
  read_uint (show_uint u ++ rest) = (u, rest).
Proof.
  intros H. induction u; cbn [show_uint app];
    [now apply read_uint_stop | cbn [read_uint digit]; now rewrite IHu ..].
Qed.

Lemma nzhead_no_zero d : match nzhead d with D0 _ => False | _ => True end.
Proof. induction d; simpl; trivial. Qed.

Lemma to_uint_canonical p : canonical (Pos.to_uint p).
Proof.
  pose proof (DecimalPos.Unsigned.to_of (Pos.to_uint p)) as H.
  rewrite DecimalPos.Unsigned.of_to in H. cbn [N.to_uint] in H.
  pose proof (DecimalPos.Unsigned.to_uint_nonnil p) as Hnil.
  pose proof (DecimalPos.Unsigned.to_uint_nonzero p) as Hzero.
  destruct (Pos.to_uint p) as [|u| | | | | | | | |]; simpl; trivial; [congruence|].
  destruct u; trivial; exfalso.
  all: unfold unorm in H; cbn [nzhead] in H;
    match type of H with
    | _ = match nzhead ?d with _ => _ end =>
        pose proof (nzhead_no_zero d) as Hd; destruct (nzhead d); try discriminate H;
        try (injection H as H; discriminate H); try contradiction
    | _ => try discriminate H
    end.
Qed.

Lemma parse_number_digits (negative : bool) u rest :
  canonical u -> terminated rest ->
  parse_number ((if negative then ["-"] else []) ++ show_uint u ++ rest)
  = Some (JNumber (if negative then - Z.of_uint u else Z.of_uint u)%Z, rest).
Proof.
  intros Hu Hrest.
  pose proof (read_uint_show u rest (terminated_no_digit _ Hrest)) as Hread.
  pose proof (terminated_no_fraction _ Hrest) as Hfrac.
  unfold parse_number. destruct negative; cbn [app].
  - rewrite Hread. destruct u as [|u| | | | | | | | |]; try (now rewrite Hfrac); [contradiction|].
    destruct u; try contradiction. now rewrite Hfrac.
  - destruct u as [|u| | | | | | | | |]; try contradiction;
      cbn [show_uint app] in *; rewrite Hread;
      try (now rewrite Hfrac).
    destruct u; try contradiction. now rewrite Hfrac.
Qed.

Lemma parse_number_text n rest :
  terminated rest ->
  parse_number (number_to_text n ++ rest) = Some (JNumber n, rest).
Proof.
  intros Hrest. destruct n as [|p|p]; unfold number_to_text.
  - apply (parse_number_digits false (D0 Nil) rest); simpl; trivial.
  - pose proof (parse_number_digits false _ rest (to_uint_canonical p) Hrest) as H.
    cbn [app] in H |- *. rewrite H.
    unfold Z.of_uint. now rewrite DecimalPos.Unsigned.of_to.
  - pose proof (parse_number_digits true _ rest (to_uint_canonical p) Hrest) as H.
    cbn [app] in H |- *. rewrite H.
    unfold Z.of_uint. now rewrite DecimalPos.Unsigned.of_to.
Qed.

Lemma parse_value_number fuel c t :
  c = "-" \/ digit c <> None ->
  parse_value (S fuel) (c :: t) = parse_number (c :: t).
Proof.
  intros H. destruct c as [[] [] [] [] [] [] [] []];
    try reflexivity; exfalso; destruct H as [H | H]; try discriminate H; now apply H.
Qed.

Lemma number_text_head n :
  exists c t, number_to_text n = c :: t /\ (c = "-" \/ digit c <> None).
Proof.
  destruct n as [|p|p]; unfold number_to_text.
  - exists "0", []. split; [reflexivity | right; discriminate].
  - pose proof (to_uint_canonical p) as H.
    destruct (Pos.to_uint p); try contradiction;
      cbn [show_uint]; eexists _, _; (split; [reflexivity | right; discriminate]).
  - eexists _, _. split; [reflexivity | now left].
Qed.

Lemma value_start_number c : c = "-" \/ digit c <> None -> value_start c = true.
Proof.
  intros [-> | H]; [reflexivity|].
  unfold value_start. destruct (digit c); [|contradiction].
  destruct c as [[] [] [] [] [] [] [] []]; reflexivity.
Qed.

Lemma parse_value_array fuel c r :
  value_start c = true ->
  parse_value (S fuel) ("[" :: c :: r)
  = match parse_elements fuel (c :: r) with
    | Some (xs, r') => Some (JArray xs, r')
    | None => None
    end.
Proof.
  intros H. destruct c as [[] [] [] [] [] [] [] []]; try discriminate H; reflexivity.
Qed.

Lemma parse_value_object fuel r :
  parse_value (S fuel) ("{" :: "034" :: r)
  = match parse_members fuel ("034" :: r) with
    | Some (ms, r') => Some (JObject (object_of_members ms), r')
    | None => None
    end.
Proof. reflexivity. Qed.

Lemma parse_elements_step fuel s :
  parse_elements (S fuel) s
  = match parse_value fuel s with
    | Some (v, r) =>
        match skip_ws r with
        | "," :: r' =>
            match parse_elements fuel r' with
            | Some (vs, r'') => Some (v :: vs, r'')
            | None => None
            end
        | "]" :: r' => Some ([v], r')
        | _ => None
        end
    | None => None
    end.
Proof. reflexivity. Qed.

Lemma parse_members_step fuel k r r3 :
  parse_string_body r = Some (k, ":" :: r3) ->
  parse_members (S fuel) ("034" :: r)
  = match parse_value fuel r3 with
    | Some (v, r4) =>
        match skip_ws r4 with
        | "," :: r5 =>
            match parse_members fuel r5 with
            | Some (ms, r6) => Some ((string_of_list_ascii k, v) :: ms, r6)
            | None => None
            end
        | "}" :: r5 => Some ([(string_of_list_ascii k, v)], r5)
        | _ => None
        end
    | None => None
    end.
Proof. intros H. cbn [parse_members skip_ws is_ws]. rewrite H. reflexivity. Qed.

Lemma element_text_reads_back x :
  reads_back x ->
  exists c t, element_text x = c :: t /\ value_start c = true /\
    forall fuel rest,
      length (c :: t) < fuel -> terminated rest ->
      parse_value fuel (c :: t ++ rest) = Some (x, rest).
Proof.
  intros (c & t & Hs & Hc & Hp). exists c, t. unfold element_text. now rewrite Hs.
Qed.

Lemma join_comma_cons p q rest :
  join_comma (p :: q :: rest) = p ++ "," :: join_comma (q :: rest).
Proof. reflexivity. Qed.

Lemma parse_elements_join xs :
  Forall (fun x => is_json x = true -> reads_back x) xs ->
  forallb is_json xs = true ->
  xs <> [] ->
  (exists c t, join_comma (map element_text xs) = c :: t /\ value_start c = true) /\
  forall fuel rest,
    S (length (join_comma (map element_text xs))) < fuel ->
    parse_elements fuel (join_comma (map element_text xs) ++ "]" :: rest) = Some (xs, rest).
Proof.
  induction 1 as [|x xs Hx Hxs IH]; [congruence|].
  cbn [forallb]. intros [Hjx Hjxs]%andb_prop _.
  destruct (element_text_reads_back x (Hx Hjx)) as (c & t & Ht & Hc & Hp).
  destruct xs as [|y ys].
  - cbn [map join_comma]. rewrite Ht. split; [now exists c, t|].
    intros [|fuel] rest Hfuel; [lia|].
    rewrite parse_elements_step. cbn [app]. rewrite Hp; [reflexivity | lia | simpl; auto].
  - destruct (IH Hjxs ltac:(discriminate)) as [_ IHp].
    cbn [map]. rewrite join_comma_cons. cbn [map] in IHp. rewrite Ht.
    split; [now exists c, (t ++ "," :: join_comma (element_text y :: map element_text ys))|].
    intros [|fuel] rest Hfuel; [lia|].
    rewrite length_app in Hfuel. cbn [length] in Hfuel.
    rewrite parse_elements_step, <- app_assoc. cbn [app].
    rewrite Hp; [| cbn [length]; lia | simpl; auto].
    cbn [skip_ws is_ws]. rewrite IHp; [reflexivity | lia].
Qed.

Lemma member_text_app kv tail :
  member_text kv ++ tail
  = "034" :: escape (list_ascii_of_string (fst kv))
         ++ "034" :: ":" :: element_text (snd kv) ++ tail.
Proof.
  unfold member_text, quote. cbn [app]. rewrite <- !app_assoc. reflexivity.
Qed.

Lemma length_member_text kv :
  length (member_text kv) = 3 + length (escape (list_ascii_of_string (fst kv)))
                            + length (element_text (snd kv)).
Proof.
  unfold member_text, quote. cbn [app length].
  rewrite !length_app. cbn [length]. lia.
Qed.

Lemma parse_members_join ps :
  Forall (fun kv => is_json (snd kv) = true -> reads_back (snd kv)) ps ->
  forallb (fun kv => is_json (snd kv)) ps = true ->
  ps <> [] ->
  (exists t, join_comma (map member_text ps) = "034" :: t) /\
  forall fuel rest,
    S (length (join_comma (map member_text ps))) < fuel ->
    parse_members fuel (join_comma (map member_text ps) ++ "}" :: rest) = Some (ps, rest).
Proof.
  induction 1 as [|[k v] ps Hx Hxs IH]; [congruence|].
  cbn [forallb snd] in *. intros [Hjx Hjxs]%andb_prop _.
  destruct (element_text_reads_back v (Hx Hjx)) as (c & t & Ht & Hc & Hp).
  destruct ps as [|q qs].
  - cbn [map join_comma]. split; [now eexists|].
    intros [|fuel] rest Hfuel; [lia|].
    rewrite length_member_text in Hfuel. cbn [fst snd] in Hfuel.
    rewrite member_text_app. cbn [fst snd].
    rewrite (parse_members_step fuel _ _ _ (parse_escape _ _)).
    rewrite Ht in *. cbn [app]. rewrite Hp; [| lia | simpl; auto].
    cbn [skip_ws is_ws]. now rewrite string_of_list_ascii_of_string.
  - destruct (IH Hjxs ltac:(discriminate)) as [_ IHp].
    cbn [map]. rewrite join_comma_cons. cbn [map] in IHp.
    split; [now eexists|].
    intros [|fuel] rest Hfuel; [lia|].
    rewrite length_app, length_member_text in Hfuel. cbn [fst snd length] in Hfuel.
    rewrite <- app_assoc, member_text_app. cbn [fst snd app].
    rewrite (parse_members_step fuel _ _ _ (parse_escape _ _)).
    rewrite Ht in *. cbn [app]. rewrite Hp; [| lia | simpl; auto].
    cbn [skip_ws is_ws]. rewrite IHp; [| lia].
    now rewrite string_of_list_ascii_of_string.
Qed.

Lemma filter_members ps :
  Forall (fun kv => is_json (snd kv) = true -> reads_back (snd kv)) ps ->
  forallb (fun kv => is_json (snd kv)) ps = true ->
  filter_map (fun kv => match serialize (snd kv) with
                        | Some t => Some (quote (fst kv) ++ ":" :: t)
                        | None => None
                        end) ps
  = map member_text ps.
Proof.
  induction 1 as [|kv ps Hx Hxs IH]; [reflexivity|].
  cbn [forallb]. intros [Hjx Hjxs]%andb_prop.
  destruct (Hx Hjx) as (c & t & Hs & _).
  cbn [filter_map map]. unfold member_text at 1, element_text. rewrite Hs.
  now rewrite IH.
Qed.

Lemma map_elements xs :
  map (fun x => match serialize x with Some t => t | None => null_text end) xs
  = map element_text xs.
Proof. reflexivity. Qed.

Lemma define_property_fresh props k v :
  k ∉ map fst props -> define_property props k v = props ++ [(k, v)].
Proof.
  induction props as [|[k' v'] props IH]; [reflexivity|].
  cbn [map fst]. intros [Hne Hnot]%not_elem_of_cons.
  cbn [define_property app].
  destruct (String.eqb_spec k' k) as [-> | _]; [contradiction|].
  now rewrite IH.
Qed.

Lemma fold_define_property ms acc :
  NoDup (map fst (acc ++ ms)) ->
  fold_left (fun props kv => define_property props (fst kv) (snd kv)) ms acc = acc ++ ms.
Proof.
  revert acc. induction ms as [|[k v] ms IH]; intros acc Hnd.
  - now rewrite app_nil_r.
  - cbn [fold_left fst snd].
    rewrite define_property_fresh.
    + rewrite IH; rewrite <- app_assoc; [reflexivity | exact Hnd].
    + rewrite map_app in Hnd. cbn [map fst] in Hnd.
      apply NoDup_app in Hnd as (_ & Hdisj & _).
      intros Hin. apply (Hdisj k Hin). now left.
Qed.

Lemma object_of_members_nodup ms :
  NoDup (map fst ms) -> object_of_members ms = ms.
Proof. intros H. unfold object_of_members. now rewrite fold_define_property. Qed.

(** The parser is given more fuel than a non-empty text is long: it has
    at least one unit to spend. *)
Ltac spend_fuel :=
  let fuel := fresh "fuel" in
  let rest := fresh "rest" in
  let Hfuel := fresh "Hfuel" in
  let Hrest := fresh "Hrest" in
  intros [|fuel] rest Hfuel Hrest; [cbn in Hfuel; lia|].

Theorem is_json_reads_back v : is_json v = true -> reads_back v.
Proof.
  induction v as [| |b|n|s|xs IH|props IH|] using JsValue_ind;
    cbn [is_json]; intros Hj; try discriminate Hj.
  - exists "n", ["u"; "l"; "l"]. repeat split.
    spend_fuel; reflexivity.
  - destruct b.
    + exists "t", ["r"; "u"; "e"]. repeat split.
      spend_fuel; reflexivity.
    + exists "f", ["a"; "l"; "s"; "e"]. repeat split.
      spend_fuel; reflexivity.
  - destruct (number_text_head n) as (c & t & Hn & Hc).
    exists c, t. cbn [serialize]. rewrite Hn.
    split; [reflexivity|]. split; [now apply value_start_number|].
    spend_fuel.
    rewrite parse_value_number by exact Hc.
    change (c :: t ++ rest) with ((c :: t) ++ rest). rewrite <- Hn.
    now apply parse_number_text.
  - exists "034", (escape (list_ascii_of_string s) ++ ["034"]). repeat split.
    spend_fuel.
    cbn [parse_value skip_ws is_ws]. rewrite <- app_assoc. cbn [app].
    rewrite parse_escape. now rewrite string_of_list_ascii_of_string.
  - unfold reads_back. cbn [serialize]. rewrite map_elements.
    destruct xs as [|x xs].
    + exists "[", ["]"]. repeat split.
      spend_fuel; reflexivity.
    + destruct (parse_elements_join (x :: xs) IH Hj ltac:(discriminate))
        as [(c & t & Hbody & Hc) Hp].
      exists "[", (join_comma (map element_text (x :: xs)) ++ ["]"]). repeat split.
      spend_fuel.
      cbn [length] in Hfuel. rewrite length_app in Hfuel. cbn [length] in Hfuel.
      rewrite <- app_assoc. cbn [app].
      specialize (Hp fuel rest). rewrite Hbody in *. cbn [app] in *.
      rewrite parse_value_array by exact Hc.
      rewrite Hp; [reflexivity | lia].
  - apply andb_prop in Hj as [Hnd Hj]. apply bool_decide_eq_true in Hnd.
    unfold reads_back. cbn [serialize]. rewrite (filter_members props IH Hj).
    destruct props as [|kv props].
    + exists "{", ["}"]. repeat split.
      spend_fuel; reflexivity.
    + destruct (parse_members_join (kv :: props) IH Hj ltac:(discriminate))
        as [(t & Hbody) Hp].
      exists "{", (join_comma (map member_text (kv :: props)) ++ ["}"]). repeat split.
      spend_fuel.
      cbn [length] in Hfuel. rewrite length_app in Hfuel. cbn [length] in Hfuel.
      rewrite <- app_assoc. cbn [app].
      specialize (Hp fuel rest). rewrite Hbody in *. cbn [app] in *.
      rewrite parse_value_object.
      rewrite Hp; [| lia].
      now rewrite object_of_members_nodup.
Qed.

(** [JSON.parse(JSON.stringify(v))] is [v] for every JSON value [v]. *)
Theorem parse_stringify v :
  is_json v = true ->
  exists s, stringify v = Some s /\ parse s = Some v.
Proof.
  intros Hj. destruct (is_json_reads_back v Hj) as (c & t & Hs & _ & Hp).
  unfold stringify, parse. rewrite Hs. eexists. split; [reflexivity|].
  rewrite list_ascii_of_string_of_list_ascii.
  specialize (Hp (S (length (c :: t))) [] ltac:(lia) I).
  rewrite app_nil_r in Hp. rewrite Hp. reflexivity.
Qed.

Lemma stringify_object props : exists s, stringify (JObject props) = Some s.
Proof. unfold stringify. cbn [serialize]. now eexists. Qed.

End JSONFacts.

(** ** The session store *)

Section StoreFacts.
Import JSONFacts.

Variable internals : option (Session -> bool).

Lemma stringify_empty_state stateId :
  exists text,
    JSON.stringify (_createEmptyState stateId) = Some text /\
    JSON.parse text = Some (_createEmptyState stateId).
Proof.
  apply parse_stringify. unfold _createEmptyState. cbn [is_json map fst forallb snd].
  rewrite andb_true_r. apply bool_decide_eq_true. apply NoDup_singleton.
Qed.

Lemma getState_present fuel stateId db session :
  dialog_sessions db !! stateId = Some session ->
  _isExpired internals session = false ->
  getState internals (S fuel) stateId db
  = match JSON.parse (state session) with
    | Some v => (Resolved v, db)
    | None => (Rejected SyntaxError, db)
    end.
Proof.
  intros Hrow Hhook. cbn [getState]. unfold await, select_first.
  rewrite Hrow, Hhook. unfold JSON_parse.
  destruct (JSON.parse (state session)); reflexivity.
Qed.

Lemma createSession_present stateId db session :
  dialog_sessions db !! stateId = Some session ->
  _createSession stateId db = (Rejected (UniqueViolation stateId), db).
Proof.
  intros Hrow. unfold _createSession.
  destruct (stringify_empty_state stateId) as (text & -> & _).
  unfold insert. cbn [sid]. now rewrite Hrow.
Qed.

Lemma getState_expired fuel stateId db session :
  dialog_sessions db !! stateId = Some session ->
  _isExpired internals session = true ->
  getState internals (S fuel) stateId db = (Rejected (UniqueViolation stateId), db).
Proof.
  intros Hrow Hhook. cbn [getState]. unfold await at 1, select_first.
  rewrite Hrow, Hhook. unfold await.
  now rewrite (createSession_present _ _ _ Hrow).
Qed.

Lemma createSession_missing stateId db :
  dialog_sessions db !! stateId = None ->
  exists text,
    JSON.stringify (_createEmptyState stateId) = Some text /\
    JSON.parse text = Some (_createEmptyState stateId) /\
    let row := mkSession stateId text (Some (date_now db)) (Some (date_now db)) in
    _createSession stateId db
    = (Resolved tt, with_sessions db (<[stateId := row]> (dialog_sessions db))).
Proof.
  intros Hrow. destruct (stringify_empty_state stateId) as (text & Hs & Hp).
  exists text. repeat split; try assumption.
  unfold _createSession. rewrite Hs. unfold insert. cbn [sid]. now rewrite Hrow.
Qed.

Lemma getState_step fuel stateId db :
  getState internals (S fuel) stateId db
  = match dialog_sessions db !! stateId with
    | Some session =>
        if _isExpired internals session
        then match _createSession stateId db with
             | (Resolved _, db') => getState internals fuel stateId db'
             | (Rejected e, db') => (Rejected e, db')
             | (Pending, db') => (Pending, db')
             end
        else JSON_parse (state session) db
    | None =>
        match _createSession stateId db with
        | (Resolved _, db') => getState internals fuel stateId db'
        | (Rejected e, db') => (Rejected e, db')
        | (Pending, db') => (Pending, db')
        end
    end.
Proof.
  cbn [getState]. unfold await, select_first.
  destruct (dialog_sessions db !! stateId) as [session|]; [|reflexivity].
  destruct (_isExpired internals session); reflexivity.
Qed.

(** With no row for [X], [getState] inserts the fresh session and, the hook
    not reporting that row as expired, resolves to the default document. *)
Lemma getState_creates X db :
  dialog_sessions db !! X = None ->
  exists row,
    sid row = X /\
    created_on row = Some (date_now db) /\
    active_on row = Some (date_now db) /\
    JSON.stringify (_createEmptyState X) = Some (state row) /\
    (_isExpired internals row = false ->
     forall fuel,
       getState internals (S (S fuel)) X db
       = (Resolved (_createEmptyState X),
          with_sessions db (<[X := row]> (dialog_sessions db)))).
Proof.
  intros Hrow.
  destruct (createSession_missing X db Hrow) as (text & Hs & Hp & Hcreate).
  cbn zeta in Hcreate.
  eexists (mkSession X text _ _). repeat split; [exact Hs|].
  intros Hhook fuel. rewrite getState_step, Hrow, Hcreate.
  erewrite getState_present; [| apply lookup_insert_eq | exact Hhook].
  cbn [state]. now rewrite Hp.
Qed.

(** What [setState] stores for a valid document, [getState] reads back. *)
Lemma setState_getState X D db :
  valid_document D = true ->
  exists db' row,
    call (setState X D) db = (Resolved tt, db') /\
    dialog_sessions db' !! X = Some row /\
    JSON.stringify D = Some (state row) /\
    forall later fuel,
      dialog_sessions later !! X = Some row ->
      _isExpired internals row = false ->
      getState internals (S fuel) X later = (Resolved D, later).
Proof.
  unfold valid_document. intros [Hobj Hjson]%andb_prop.
  destruct (parse_stringify D Hjson) as (text & Hs & Hp).
  assert (Hnil : isNil D = false) by (destruct D; try discriminate Hobj; reflexivity).
  assert (Hread : forall row later fuel,
             state row = text ->
             dialog_sessions later !! X = Some row ->
             _isExpired internals row = false ->
             getState internals (S fuel) X later = (Resolved D, later)).
  { intros row later fuel Htext Hrow Hhook.
    rewrite (getState_present _ _ _ _ Hrow Hhook), Htext. now rewrite Hp. }
  unfold setState. rewrite Hnil, Hobj. cbn [negb call].
  unfold _upsertState. rewrite Hs.
  destruct (isLite db); unfold insert_or_replace, insert_on_conflict_update;
    eexists _, _; (split; [reflexivity|]);
    cbn [dialog_sessions with_sessions]; (split; [apply lookup_insert_eq|]).
  - split; [reflexivity|]. intros later fuel. now apply Hread.
  - destruct (dialog_sessions db !! X) as [old|];
      (split; [reflexivity|]); intros later fuel; now apply Hread.
Qed.

Lemma setState_plain_object X props :
  setState X (JObject props) = Returns (_upsertState X (JObject props)).
Proof. reflexivity. Qed.


(** On the standard backend a new key gets both timestamps from the one
    reading of the clock. *)
Lemma upsert_standard_fresh X props db :
  isLite db = false ->
  dialog_sessions db !! X = None ->
  exists text,
    JSON.stringify (JObject props) = Some text /\
    call (setState X (JObject props)) db
    = (Resolved tt,
       with_sessions db
         (<[X := mkSession X text (Some (date_now db)) (Some (date_now db))]>
            (dialog_sessions db))).
Proof.
  intros Hstd Hrow. destruct (stringify_object props) as (text & Hs).
  exists text. split; [exact Hs|].
  rewrite setState_plain_object. cbn [call]. unfold _upsertState.
  rewrite Hs, Hstd. unfold insert_on_conflict_update. now rewrite Hrow.
Qed.

(** C5. On the standard backend, a [setState] whose key is already in
    the table rewrites that row's [state] and [active_on] only: the row
    keeps its [id] and its [created_on], and no other row changes. *)
Theorem upsert_standard_collision X props db old :
  isLite db = false ->
  dialog_sessions db !! X = Some old ->
  exists text,
    JSON.stringify (JObject props) = Some text /\
    call (setState X (JObject props)) db
    = (Resolved tt,
       with_sessions db
         (<[X := {| sid := sid old; state := text;
                    active_on := Some (date_now db);
                    created_on := created_on old |}]>
            (dialog_sessions db))).
Proof.
  intros Hstd Hrow. destruct (stringify_object props) as (text & Hs).
  exists text. split; [exact Hs|].
  rewrite setState_plain_object. cbn [call]. unfold _upsertState.
  rewrite Hs, Hstd. unfold insert_on_conflict_update. now rewrite Hrow.
Qed.

(** C6. A value that is neither nil nor a plain object makes [setState]
    throw on the spot, with no statement built, and a caller awaiting it
    sees the failure with the database exactly as it was. *)
Theorem setState_rejects_non_object X V db :
  isNil V = false ->
  isPlainObject V = false ->
  setState X V = Throws (Error "State must be a plain object") /\
  call (setState X V) db = (Rejected (Error "State must be a plain object"), db).
Proof.
  intros Hnil Hobj. unfold setState. rewrite Hnil, Hobj. split; reflexivity.
Qed.

Lemma elem_of_states X S k :
  k ∈ states X S <-> k = X \/ exists s, s ∈ S /\ k = X +:+ "___" +:+ s.
Proof.
  unfold states. rewrite elem_of_cons, list_elem_of_fmap.
  split; (intros [H | (s & H1 & H2)]; [now left | right; exists s; tauto]).
Qed.

Lemma where_in_del_lookup keys db k :
  dialog_sessions (snd (where_in_del keys db)) !! k
  = if bool_decide (k ∈ keys) then None else dialog_sessions db !! k.
Proof.
  unfold where_in_del. cbn [snd dialog_sessions with_sessions].
  rewrite map_lookup_filter. case_bool_decide as Hin.
  - destruct (dialog_sessions db !! k); [|reflexivity].
    cbn. rewrite option_guard_False; [reflexivity | cbn; tauto].
  - destruct (dialog_sessions db !! k); [|reflexivity].
    cbn. rewrite option_guard_True; [reflexivity | exact Hin].
Qed.

(** C7. [deleteState(X, S)] resolves; a row is gone afterwards exactly
    when its id is [X] or [X ++ "___" ++ s] for some [s] in [S], every
    other row is as before; leaving [S] out means [["context"]], and an
    empty [S] removes the row of [X] alone. *)
Theorem deleteState_removes_exactly X S db :
  fst (deleteState X (Some S) db) = Resolved tt /\
  (forall k, k ∈ states X S <-> k = X \/ exists s, s ∈ S /\ k = X +:+ "___" +:+ s) /\
  (forall k,
      dialog_sessions (snd (deleteState X (Some S) db)) !! k
      = if bool_decide (k ∈ states X S) then None else dialog_sessions db !! k) /\
  deleteState X None db = deleteState X (Some ["context"]) db /\
  dialog_sessions (snd (deleteState X (Some []) db)) = delete X (dialog_sessions db).
Proof.
  split; [reflexivity|]. split; [intros k; apply elem_of_states|].
  split; [intros k; apply where_in_del_lookup|]. split; [reflexivity|].
  apply map_eq. intros k. unfold deleteState. rewrite where_in_del_lookup.
  unfold states. cbn [map]. rewrite lookup_delete.
  case_bool_decide as Hin; case_decide as Heq; try reflexivity.
  - apply list_elem_of_singleton in Hin. congruence.
  - exfalso. apply Hin. apply list_elem_of_singleton. congruence.
Qed.

(** C8. [deleteState] resolves whether or not the rows it targets exist,
    and called a second time it resolves again and changes nothing. *)
Theorem deleteState_idempotent X S db :
  fst (deleteState X S db) = Resolved tt /\
  deleteState X S (snd (deleteState X S db))
  = (Resolved tt, snd (deleteState X S db)).
Proof.
  split; [reflexivity|].
  unfold deleteState, where_in_del. cbn [snd dialog_sessions with_sessions].
  f_equal. unfold with_sessions. cbn. f_equal.
  apply map_filter_id. intros k row Hrow.
  now apply map_lookup_filter_Some_1_2 in Hrow.
Qed.

(** C9. [setState(X, null)] and [setState(X, undefined)] are the very
    call [setState(X, { "_stateId": X })], and the three do the same to
    every database: they resolve and leave under [X] one and the same row,
    stamped with the time of the write and holding the text of
    [{ "_stateId": X }], a text that parses back to that document. *)
Theorem setState_nil_is_default X db :
  setState X JNull = setState X (JObject [("_stateId", JString X)]) /\
  setState X JUndefined = setState X (JObject [("_stateId", JString X)]) /\
  exists row,
    JSON.stringify (JObject [("_stateId", JString X)]) = Some (state row) /\
    JSON.parse (state row) = Some (JObject [("_stateId", JString X)]) /\
    active_on row = Some (date_now db) /\
    call (setState X JNull) db
    = (Resolved tt, with_sessions db (<[X := row]> (dialog_sessions db))) /\
    call (setState X JUndefined) db
    = (Resolved tt, with_sessions db (<[X := row]> (dialog_sessions db))) /\
    call (setState X (JObject [("_stateId", JString X)])) db
    = (Resolved tt, with_sessions db (<[X := row]> (dialog_sessions db))).
Proof.
  split; [reflexivity|]. split; [reflexivity|].
  destruct (stringify_empty_state X) as (text & Hs & Hp).
  change (_createEmptyState X) with (JObject [("_stateId", JString X)]) in Hs, Hp.
  assert (Hrun : forall V,
             setState X V = Returns (_upsertState X (JObject [("_stateId", JString X)])) ->
             call (setState X V) db
             = _upsertState X (JObject [("_stateId", JString X)]) db)
    by (intros V ->; reflexivity).
  rewrite (Hrun JNull eq_refl), (Hrun JUndefined eq_refl),
    (Hrun (JObject [("_stateId", JString X)]) eq_refl).
  unfold _upsertState. rewrite Hs.
  destruct (isLite db); unfold insert_or_replace, insert_on_conflict_update.
  - exists (mkSession X text (Some (date_now db))
              (column_default (created_on_default db) (date_now db))).
    cbn [state active_on]. repeat split; assumption.
  - destruct (dialog_sessions db !! X) as [old|].
    + exists (mkSession (sid old) text (Some (date_now db)) (created_on old)).
      cbn [state active_on]. repeat split; assumption.
    + exists (mkSession X text (Some (date_now db)) (Some (date_now db))).
      cbn [state active_on]. repeat split; assumption.
Qed.

(** C10. [getState(X)] settles within two nested calls, whatever the
    table holds and whatever the hook answers: the allowance of two gives
    a settled outcome, and any larger allowance gives the same one. *)
Theorem getState_terminates X db :
  fst (getState internals 2 X db) <> Pending /\
  forall fuel, getState internals (S (S fuel)) X db = getState internals 2 X db.
Proof.
  destruct (dialog_sessions db !! X) as [session|] eqn:Hrow.
  - destruct (_isExpired internals session) eqn:Hhook.
    + split; [| intros fuel]; rewrite !(getState_expired _ _ _ _ Hrow Hhook);
        [discriminate | reflexivity].
    + split; [| intros fuel]; rewrite !(getState_present _ _ _ _ Hrow Hhook);
        [destruct (JSON.parse (state session)); discriminate | reflexivity].
  - destruct (createSession_missing X db Hrow) as (text & Hs & Hp & Hcreate).
    cbn zeta in Hcreate.
    assert (Hnew : dialog_sessions
                     (with_sessions db
                        (<[X := mkSession X text (Some (date_now db)) (Some (date_now db))]>
                           (dialog_sessions db))) !! X
                   = Some (mkSession X text (Some (date_now db)) (Some (date_now db))))
      by apply lookup_insert_eq.
    destruct (_isExpired internals
                (mkSession X text (Some (date_now db)) (Some (date_now db)))) eqn:Hhook.
    + split; [| intros fuel]; rewrite !getState_step, !Hrow, !Hcreate;
        rewrite !(getState_expired _ _ _ _ Hnew Hhook); [discriminate | reflexivity].
    + split; [| intros fuel]; rewrite !getState_step, !Hrow, !Hcreate;
        rewrite !(getState_present _ _ _ _ Hnew Hhook); cbn [state]; rewrite Hp;
        [discriminate | reflexivity].
Qed.

(** With no row for [X] a single call is not enough: the read comes after
    one recursive call. *)
Lemma getState_missing_recurses X db :
  dialog_sessions db !! X = None ->
  fst (getState internals 1 X db) = Pending.
Proof.
  intros Hrow.
  destruct (createSession_missing X db Hrow) as (text & _ & _ & Hcreate).
  cbn zeta in Hcreate. now rewrite getState_step, Hrow, Hcreate.
Qed.

(** *** Every operation keeps rows under their own key *)

Lemma well_keyed_insert db k row :
  well_keyed db -> sid row = k ->
  well_keyed (with_sessions db (<[k := row]> (dialog_sessions db))).
Proof.
  intros Hdb Hk k' row'. cbn [dialog_sessions with_sessions].
  rewrite lookup_insert. case_decide as Heq.
  - intros [= <-]. congruence.
  - apply Hdb.
Qed.

Lemma createSession_well_keyed X db :
  well_keyed db -> well_keyed (snd (_createSession X db)).
Proof.
  intros Hdb. unfold _createSession.
  destruct (JSON.stringify (_createEmptyState X)); [|exact Hdb].
  unfold insert. cbn [sid].
  destruct (dialog_sessions db !! X); [exact Hdb|].
  now apply well_keyed_insert.
Qed.

Lemma getState_well_keyed fuel X db :
  well_keyed db -> well_keyed (snd (getState internals fuel X db)).
Proof.
  revert db. induction fuel as [|fuel IH]; intros db Hdb; [exact Hdb|].
  rewrite getState_step.
  pose proof (createSession_well_keyed X db Hdb) as Hcreate.
  assert (Hrec : well_keyed
            (snd match _createSession X db with
                 | (Resolved _, db') => getState internals fuel X db'
                 | (Rejected e, db') => (Rejected e, db')
                 | (Pending, db') => (Pending, db')
                 end)).
  { destruct (_createSession X db) as [[| |] db']; cbn [snd] in *; auto. }
  destruct (dialog_sessions db !! X) as [session|]; [|exact Hrec].
  destruct (_isExpired internals session); [exact Hrec|].
  unfold JSON_parse. destruct (JSON.parse (state session)); exact Hdb.
Qed.

Lemma setState_well_keyed X V db :
  well_keyed db -> well_keyed (snd (call (setState X V) db)).
Proof.
  intros Hdb. unfold setState.
  destruct (negb _); [exact Hdb|]. cbn [call]. unfold _upsertState.
  destruct (JSON.stringify _); [|exact Hdb].
  destruct (isLite db); unfold insert_or_replace, insert_on_conflict_update; cbn [snd].
  - now apply well_keyed_insert.
  - apply well_keyed_insert; [exact Hdb|].
    destruct (dialog_sessions db !! X) as [old|] eqn:Hrow; [|reflexivity].
    cbn [sid]. now apply Hdb.
Qed.

Lemma deleteState_well_keyed X S db :
  well_keyed db -> well_keyed (snd (deleteState X S db)).
Proof.
  intros Hdb k row. unfold deleteState, where_in_del.
  cbn [snd dialog_sessions with_sessions].
  intros Hrow%map_lookup_filter_Some_1_1. now apply Hdb.
Qed.

End StoreFacts.

(** ** Reading a session *)

(** C1. With no row for [X], [getState(X)] inserts the session row that
    holds the text of [{ "_stateId": X }], stamped with the current time,
    and resolves to the document [{ "_stateId": X }] with no failure, for
    every recursion allowance of two calls or more.  So it is for the
    module as it comes, with no [internals] given; with an injected hook it
    is so whenever the hook does not report the row just created as
    expired. *)
Theorem getState_missing_id X db :
  dialog_sessions db !! X = None ->
  exists row,
    sid row = X /\
    created_on row = Some (date_now db) /\
    active_on row = Some (date_now db) /\
    JSON.stringify (JObject [("_stateId", JString X)]) = Some (state row) /\
    JSON.parse (state row) = Some (JObject [("_stateId", JString X)]) /\
    (forall fuel,
        getState None (S (S fuel)) X db
        = (Resolved (JObject [("_stateId", JString X)]),
           with_sessions db (<[X := row]> (dialog_sessions db)))) /\
    (forall internals fuel,
        _isExpired internals row = false ->
        getState internals (S (S fuel)) X db
        = (Resolved (JObject [("_stateId", JString X)]),
           with_sessions db (<[X := row]> (dialog_sessions db)))).
Proof.
  intros Hrow.
  change (JObject [("_stateId", JString X)]) with (_createEmptyState X).
  destruct (createSession_missing X db Hrow) as (text & Hs & Hp & _).
  exists (mkSession X text (Some (date_now db)) (Some (date_now db))).
  assert (Hget : forall internals fuel,
             _isExpired internals
               (mkSession X text (Some (date_now db)) (Some (date_now db))) = false ->
             getState internals (S (S fuel)) X db
             = (Resolved (_createEmptyState X),
                with_sessions db
                  (<[X := mkSession X text (Some (date_now db)) (Some (date_now db))]>
                     (dialog_sessions db)))).
  { intros internals fuel Hhook.
    destruct (getState_creates internals X db Hrow)
      as (row & Hsid & Hc & Ha & Hstate & Hrun).
    assert (Hsame : row = mkSession X text (Some (date_now db)) (Some (date_now db))).
    { destruct row as [i st a c]. cbn in *. congruence. }
    subst row. now apply Hrun. }
  repeat split; [exact Hs | exact Hp | | exact Hget].
  intros fuel. now apply Hget.
Qed.

(** C2. For a valid document [D] (a plain object that is JSON all the way
    down, however deeply nested), [setState(X, D)] resolves and leaves a
    row for [X] holding the serialized [D]; a [getState(X)] that finds this
    row parses it back to [D] itself.  So it is for the module as it comes;
    with an injected hook it is so whenever the hook does not report the
    stored row as expired. *)
Theorem setState_then_getState X D db :
  valid_document D = true ->
  exists db' row,
    call (setState X D) db = (Resolved tt, db') /\
    dialog_sessions db' !! X = Some row /\
    JSON.stringify D = Some (state row) /\
    (forall later fuel,
        dialog_sessions later !! X = Some row ->
        getState None (S fuel) X later = (Resolved D, later)) /\
    (forall internals later fuel,
        dialog_sessions later !! X = Some row ->
        _isExpired internals row = false ->
        getState internals (S fuel) X later = (Resolved D, later)).
Proof.
  intros Hvalid.
  destruct (setState_getState None X D db Hvalid) as (db' & row & Hset & Hrow & Hs & _).
  exists db', row. repeat split; try assumption.
  - intros later fuel Hlater.
    destruct (setState_getState None X D db Hvalid) as (db2 & row2 & Hset2 & Hrow2 & _ & Hget).
    assert (row2 = row) by congruence. subst row2. now apply Hget.
  - intros internals later fuel Hlater Hhook.
    destruct (setState_getState internals X D db Hvalid)
      as (db2 & row2 & Hset2 & Hrow2 & _ & Hget).
    assert (row2 = row) by congruence. subst row2. now apply Hget.
Qed.

(** ** The store at work on sample data *)

Lemma getState_missing_id_witness :
  dialog_sessions (empty_db false) !! "conv1" = None /\
  exists row,
    sid row = "conv1" /\
    created_on row = Some (date_now (empty_db false)) /\
    active_on row = Some (date_now (empty_db false)) /\
    JSON.stringify (JObject [("_stateId", JString "conv1")]) = Some (state row) /\
    JSON.parse (state row) = Some (JObject [("_stateId", JString "conv1")]) /\
    (forall fuel,
        getState None (S (S fuel)) "conv1" (empty_db false)
        = (Resolved (JObject [("_stateId", JString "conv1")]),
           with_sessions (empty_db false)
             (<["conv1" := row]> (dialog_sessions (empty_db false))))) /\
    (forall internals fuel,
        _isExpired internals row = false ->
        getState internals (S (S fuel)) "conv1" (empty_db false)
        = (Resolved (JObject [("_stateId", JString "conv1")]),
           with_sessions (empty_db false)
             (<["conv1" := row]> (dialog_sessions (empty_db false))))).
Proof.
  split; [reflexivity|].
  apply (getState_missing_id "conv1" (empty_db false)). reflexivity.
Defined.

Lemma setState_then_getState_witness :
  valid_document nested_document = true /\
  exists db' row,
    call (setState "conv1" nested_document) (conv1_db true) = (Resolved tt, db') /\
    dialog_sessions db' !! "conv1" = Some row /\
    JSON.stringify nested_document = Some (state row) /\
    (forall later fuel,
        dialog_sessions later !! "conv1" = Some row ->
        getState None (S fuel) "conv1" later = (Resolved nested_document, later)) /\
    (forall internals later fuel,
        dialog_sessions later !! "conv1" = Some row ->
        _isExpired internals row = false ->
        getState internals (S fuel) "conv1" later = (Resolved nested_document, later)).
Proof.
  split; [reflexivity|].
  apply (setState_then_getState "conv1" nested_document (conv1_db true)). reflexivity.
Defined.

(** C3. The row of [conv1] exists and the hook reports it expired:
    [getState] tries to insert the fresh session under the key that is
    taken, the insert is refused, and the call is rejected with the old row
    still in place. *)
Theorem getState_expired_row_rejected :
  _isExpired always_expired conv1_row = true /\
  getState always_expired 3 "conv1" (conv1_db false)
  = (Rejected (UniqueViolation "conv1"), conv1_db false) /\
  getState always_expired 3 "conv1" (conv1_db true)
  = (Rejected (UniqueViolation "conv1"), conv1_db true) /\
  dialog_sessions (snd (getState always_expired 3 "conv1" (conv1_db false))) !! "conv1"
  = Some conv1_row.
Proof.
  split; [reflexivity|].
  assert (H : forall lite, dialog_sessions (conv1_db lite) !! "conv1" = Some conv1_row)
    by (intros lite; apply lookup_singleton_eq).
  rewrite !(getState_expired always_expired 2 "conv1" _ conv1_row (H _) eq_refl).
  repeat split; apply H.
Qed.



Lemma upsert_standard_collision_witness :
  isLite (conv1_db false) = false /\
  dialog_sessions (conv1_db false) !! "conv1" = Some conv1_row /\
  exists text,
    JSON.stringify (JObject [("step", JNumber 4)]) = Some text /\
    call (setState "conv1" (JObject [("step", JNumber 4)])) (conv1_db false)
    = (Resolved tt,
       with_sessions (conv1_db false)
         (<["conv1" := {| sid := sid conv1_row; state := text;
                          active_on := Some (date_now (conv1_db false));
                          created_on := created_on conv1_row |}]>
            (dialog_sessions (conv1_db false)))).
Proof.
  split; [reflexivity|]. split; [reflexivity|].
  apply (upsert_standard_collision "conv1" [("step", JNumber 4)] (conv1_db false) conv1_row);
    reflexivity.
Defined.

Lemma setState_rejects_non_object_witness :
  (isNil (JNumber 42) = false /\ isPlainObject (JNumber 42) = false) /\
  setState "conv1" (JNumber 42) = Throws (Error "State must be a plain object") /\
  call (setState "conv1" (JNumber 42)) (conv1_db true)
  = (Rejected (Error "State must be a plain object"), conv1_db true).
Proof.
  split; [split; reflexivity|].
  apply (setState_rejects_non_object "conv1" (JNumber 42) (conv1_db true)); reflexivity.
Defined.

Example setState_rejects_array :
  setState "conv1" (JArray [JNumber 1; JNumber 2; JNumber 3])
  = Throws (Error "State must be a plain object").
Proof. reflexivity. Qed.

Example nested_document_round_trip :
  match JSON.stringify nested_document with
  | Some text => JSON.parse text
  | None => None
  end = Some nested_document.
Proof. vm_compute. reflexivity. Qed.

(** Why validity matters: a property holding [undefined] is not written,
    and a function in an array is written as [null]. *)
Example undefined_property_is_dropped :
  match JSON.stringify (JObject [("a", JUndefined); ("b", JArray [JFunction])]) with
  | Some text => JSON.parse text
  | None => None
  end = Some (JObject [("b", JArray [JNull])]).
Proof. vm_compute. reflexivity. Qed.

Example deleteState_default_substates :
  dialog_sessions
    (snd (deleteState "conv1" None
            (mkDb false DefaultNull 20%Z
               (<["conv1___context" := mkSession "conv1___context" "{}" None None]>
                  (<["conv2" := mkSession "conv2" "{}" None None]>
                     {["conv1" := conv1_row]})))))
  = {["conv2" := mkSession "conv2" "{}" None None]}.
Proof. vm_compute. reflexivity. Qed.

(** ** What JSON carries of an arbitrary value *)

Module JSONImage.
Import JSON JSONFacts.

Lemma serialize_defined v : is_defined v = true -> exists t, serialize v = Some t.
Proof. destruct v as [| |[]| | | | |]; try discriminate; intros _; cbn [serialize]; eauto. Qed.

Lemma serialize_undefined v : is_defined v = false -> serialize v = None.
Proof. destruct v; try discriminate; reflexivity. Qed.

Lemma to_json_text v :
  element_text (to_json v) = element_text v /\
  (is_defined v = true -> serialize (to_json v) = serialize v).
Proof.
  induction v as [| |b|n|s|xs IH|props IH|] using JsValue_ind;
    try (split; [reflexivity | first [discriminate | reflexivity]]).
  - assert (H : serialize (to_json (JArray xs)) = serialize (JArray xs)).
    { cbn [to_json serialize]. rewrite !map_elements. do 4 f_equal.
      rewrite map_map. apply map_ext_Forall.
      eapply Forall_impl; [exact IH|]. now intros x [Hx _]. }
    split; [unfold element_text; now rewrite H | intros _; exact H].
  - assert (H : serialize (to_json (JObject props)) = serialize (JObject props)).
    { cbn [to_json serialize]. do 4 f_equal.
      induction IH as [|[k v] props [Hv1 Hv2] _ IHprops]; [reflexivity|].
      cbn [fst snd] in Hv1, Hv2.
      cbn [filter_map fst snd]. destruct (is_defined v) eqn:Hdef.
      - cbn [filter_map fst snd]. rewrite (Hv2 eq_refl).
        destruct (serialize v); now rewrite IHprops.
      - rewrite (serialize_undefined v Hdef). exact IHprops. }
    split; [unfold element_text; now rewrite H | intros _; exact H].
Qed.

Lemma filter_map_keys_sublist (f : string * JsValue -> option (string * JsValue)) props :
  (forall kv kv', f kv = Some kv' -> fst kv' = fst kv) ->
  sublist (map fst (filter_map f props)) (map fst props).
Proof.
  intros Hf. induction props as [|kv props IH]; [constructor|].
  cbn [filter_map map]. destruct (f kv) as [kv'|] eqn:Hkv.
  - cbn [map]. rewrite (Hf _ _ Hkv). now constructor.
  - now constructor.
Qed.

Lemma to_json_is_json v : well_formed v = true -> is_json (to_json v) = true.
Proof.
  induction v as [| |b|n|s|xs IH|props IH|] using JsValue_ind;
    cbn [well_formed to_json is_json]; intros Hwf; try reflexivity; try exact Hwf.
  - rewrite forallb_forall in Hwf. apply forallb_forall. intros y Hy.
    apply in_map_iff in Hy as (x & <- & Hx).
    rewrite List.Forall_forall in IH. apply IH; auto.
  - apply andb_prop in Hwf as [Hnd Hall].
    apply andb_prop in Hnd as [Hnd _]. apply andb_prop in Hnd as [Hnd _].
    apply bool_decide_eq_true in Hnd.
    apply andb_true_intro. split.
    + apply bool_decide_eq_true.
      apply (sublist_NoDup _ (map fst props)); [exact Hnd|].
      apply filter_map_keys_sublist.
      intros kv kv'. destruct (is_defined (snd kv)); [|discriminate].
      now intros [= <-].
    + clear Hnd. induction IH as [|[k v] props Hv _ IHprops]; [reflexivity|].
      cbn [forallb snd] in Hall, Hv. apply andb_prop in Hall as [Hwv Hall].
      cbn [filter_map fst snd]. destruct (is_defined v).
      * cbn [forallb snd]. rewrite (Hv Hwv). now apply IHprops.
      * now apply IHprops.
Qed.

Lemma to_json_fixed v : is_json v = true -> to_json v = v.
Proof.
  induction v as [| |b|n|s|xs IH|props IH|] using JsValue_ind;
    cbn [is_json to_json]; intros Hj; try reflexivity; try discriminate Hj.
  - f_equal. rewrite forallb_forall in Hj. rewrite List.Forall_forall in IH.
    rewrite <- (map_id xs) at 2. apply map_ext_in. intros x Hx. apply IH; auto.
  - f_equal. apply andb_prop in Hj as [_ Hall].
    induction IH as [|[k v] props Hv _ IHprops]; [reflexivity|].
    cbn [forallb snd] in Hall, Hv. apply andb_prop in Hall as [Hjv Hall].
    cbn [filter_map fst snd].
    assert (Hdef : is_defined v = true) by (destruct v; try discriminate Hjv; reflexivity).
    rewrite Hdef, (Hv Hjv). f_equal. now apply IHprops.
Qed.

(** [JSON.parse(JSON.stringify(v))] is [to_json v] for every value that
    is written at all. *)
Theorem parse_stringify_image v :
  well_formed v = true -> is_defined v = true ->
  exists s, stringify v = Some s /\ parse s = Some (to_json v).
Proof.
  intros Hwf Hdef.
  destruct (parse_stringify (to_json v) (to_json_is_json v Hwf)) as (s & Hs & Hp).
  exists s. split; [|exact Hp].
  unfold stringify in *. destruct (to_json_text v) as [_ H]. now rewrite <- (H Hdef).
Qed.

End JSONImage.

(** ** The operations together *)

Section StoreUse.
Import JSONFacts JSONImage.

Variable internals : option (Session -> bool).

Lemma stringify_default X :
  JSON.stringify (_createEmptyState X) = Some (default_text X) /\
  JSON.parse (default_text X) = Some (_createEmptyState X).
Proof.
  destruct (stringify_empty_state X) as (text & Hs & Hp).
  unfold default_text. rewrite Hs. now split.
Qed.

Lemma createSession_run X db :
  _createSession X db
  = match dialog_sessions db !! X with
    | Some _ => (Rejected (UniqueViolation X), db)
    | None =>
        (Resolved tt,
         with_sessions db (<[X := fresh_session X (date_now db)]> (dialog_sessions db)))
    end.
Proof.
  unfold _createSession. destruct (stringify_default X) as [-> _].
  unfold insert. cbn [sid]. now destruct (dialog_sessions db !! X).
Qed.

Lemma getState_on_row fuel X db row :
  dialog_sessions db !! X = Some row ->
  getState internals fuel X db
  = (match fuel with
     | O => Pending
     | S _ =>
         if _isExpired internals row then Rejected (UniqueViolation X)
         else match JSON.parse (state row) with
              | Some v => Resolved v
              | None => Rejected SyntaxError
              end
     end, db).
Proof.
  intros Hrow. destruct fuel as [|fuel]; [reflexivity|].
  rewrite getState_step, Hrow, createSession_run, Hrow.
  destruct (_isExpired internals row); [reflexivity|].
  unfold JSON_parse. now destruct (JSON.parse (state row)).
Qed.

Lemma getState_on_missing fuel X db :
  dialog_sessions db !! X = None ->
  getState internals (S fuel) X db
  = (match fuel with
     | O => Pending
     | S _ =>
         if _isExpired internals (fresh_session X (date_now db))
         then Rejected (UniqueViolation X)
         else Resolved (_createEmptyState X)
     end,
     with_sessions db (<[X := fresh_session X (date_now db)]> (dialog_sessions db))).
Proof.
  intros Hrow. rewrite getState_step, Hrow, createSession_run, Hrow.
  rewrite (getState_on_row fuel X _ (fresh_session X (date_now db)))
    by apply lookup_insert_eq.
  cbn [state fresh_session]. destruct (stringify_default X) as [_ ->]. reflexivity.
Qed.

(** X1. [getState(X)] never changes or removes a row: the rows of other
    ids are as before, a row that [X] already has leaves the whole database
    as it was (whatever the hook says and however the call settles), and
    only when [X] has none is one row added, the fresh session under
    [X]. *)
Theorem getState_keeps_rows fuel X db :
  (forall k, k <> X ->
     dialog_sessions (snd (getState internals fuel X db)) !! k = dialog_sessions db !! k) /\
  (forall row, dialog_sessions db !! X = Some row ->
     snd (getState internals fuel X db) = db) /\
  (dialog_sessions db !! X = None ->
     snd (getState internals (S fuel) X db)
     = with_sessions db (<[X := fresh_session X (date_now db)]> (dialog_sessions db))).
Proof.
  split; [|split].
  - intros k Hk. destruct (dialog_sessions db !! X) as [row|] eqn:Hrow.
    + now rewrite (getState_on_row _ _ _ _ Hrow).
    + destruct fuel as [|fuel]; [reflexivity|].
      rewrite (getState_on_missing _ _ _ Hrow). cbn [snd dialog_sessions with_sessions].
      now apply lookup_insert_ne.
  - intros row Hrow. now rewrite (getState_on_row _ _ _ _ Hrow).
  - intros Hrow. now rewrite (getState_on_missing _ _ _ Hrow).
Qed.

(** X2. Asking again changes nothing: a second [getState(X)] right after
    the first settles the same way and leaves the database the first one
    left, for every hook. *)
Theorem getState_repeatable fuel X db :
  getState internals (S (S fuel)) X (snd (getState internals (S (S fuel)) X db))
  = getState internals (S (S fuel)) X db.
Proof.
  destruct (dialog_sessions db !! X) as [row|] eqn:Hrow.
  - rewrite (getState_on_row (S (S fuel)) X db row Hrow). cbn [snd].
    apply (getState_on_row (S (S fuel)) X db row Hrow).
  - rewrite (getState_on_missing _ _ _ Hrow). cbn [snd].
    rewrite (getState_on_row _ X _ (fresh_session X (date_now db)))
      by apply lookup_insert_eq.
    cbn [state fresh_session]. destruct (stringify_default X) as [_ ->].
    now destruct (_isExpired internals _).
Qed.

Lemma upsertState_run X props db :
  exists text,
    JSON.stringify (JObject props) = Some text /\
    _upsertState X (JObject props) db
    = (Resolved tt,
       with_sessions db
         (<[X := if isLite db
                 then mkSession X text (Some (date_now db))
                   (column_default (created_on_default db) (date_now db))
                 else match dialog_sessions db !! X with
                      | Some old =>
                          mkSession (sid old) text (Some (date_now db)) (created_on old)
                      | None =>
                          mkSession X text (Some (date_now db)) (Some (date_now db))
                      end]>
            (dialog_sessions db))).
Proof.
  destruct (stringify_object props) as (text & Hs). exists text. split; [exact Hs|].
  unfold _upsertState. rewrite Hs.
  destruct (isLite db); unfold insert_or_replace, insert_on_conflict_update; reflexivity.
Qed.

(** The document [setState] goes on with: the default one for a nil
    argument. *)
Lemma setState_cases X V :
  (isNil V || isPlainObject V = false /\
   setState X V = Throws (Error "State must be a plain object")) \/
  (isNil V || isPlainObject V = true /\
   exists props,
     (if isNil V then _createEmptyState X else V) = JObject props /\
     setState X V = Returns (_upsertState X (JObject props))).
Proof.
  destruct V; cbn; first [left; now split | right; split; [reflexivity|]; now eexists].
Qed.

(** X3. For an argument that stands for a JavaScript value [JSON.stringify]
    writes without calling into it (see [well_formed]), [setState] fails in
    one way only: the validation error, for a value that is neither nil nor
    a plain object.  Otherwise it resolves, on either backend and whatever
    the table holds, and the row of [X] then carries [active_on] set to the
    time of the write and the text of the document ([{ "_stateId": X }]
    for a nil argument), a text that parses to the document's JSON
    image. *)
Theorem setState_settles X V db :
  well_formed V = true ->
  fst (call (setState X V) db)
  = (if isNil V || isPlainObject V then Resolved tt
     else Rejected (Error "State must be a plain object")) /\
  (isNil V || isPlainObject V = true ->
   exists row,
     dialog_sessions (snd (call (setState X V) db)) !! X = Some row /\
     active_on row = Some (date_now db) /\
     JSON.stringify (if isNil V then JObject [("_stateId", JString X)] else V)
     = Some (state row) /\
     JSON.parse (state row)
     = Some (to_json (if isNil V then JObject [("_stateId", JString X)] else V))).
Proof.
  intros Hwf.
  change (JObject [("_stateId", JString X)]) with (_createEmptyState X).
  destruct (setState_cases X V) as [[Hno ->] | (Hyes & props & Heff & ->)].
  - rewrite Hno. split; [reflexivity | discriminate].
  - assert (Hwf' : well_formed (JObject props) = true).
    { rewrite <- Heff. destruct (isNil V); [reflexivity | exact Hwf]. }
    rewrite Hyes, Heff. cbn [call].
    destruct (upsertState_run X props db) as (text & Hs & ->).
    destruct (parse_stringify_image (JObject props) Hwf' eq_refl) as (text' & Hs' & Hp).
    assert (text' = text) by congruence. subst text'.
    split; [reflexivity|]. intros _. eexists. cbn [snd dialog_sessions with_sessions].
    split; [apply lookup_insert_eq|]. rewrite Hs.
    destruct (isLite db); [now repeat split|].
    destruct (dialog_sessions db !! X); now repeat split.
Qed.

Lemma setState_other_rows X V db k :
  k <> X ->
  dialog_sessions (snd (call (setState X V) db)) !! k = dialog_sessions db !! k.
Proof.
  intros Hk. destruct (setState_cases X V) as [[_ ->] | (_ & props & _ & ->)];
    [reflexivity|].
  cbn [call]. destruct (upsertState_run X props db) as (text & _ & ->).
  cbn [snd dialog_sessions with_sessions]. now apply lookup_insert_ne.
Qed.

Lemma setState_same_clock X V db :
  date_now (snd (call (setState X V) db)) = date_now db.
Proof.
  destruct (setState_cases X V) as [[_ ->] | (_ & props & _ & ->)]; [reflexivity|].
  cbn [call]. now destruct (upsertState_run X props db) as (text & _ & ->).
Qed.

Lemma getState_outcome_local fuel X db1 db2 :
  dialog_sessions db1 !! X = dialog_sessions db2 !! X ->
  date_now db1 = date_now db2 ->
  fst (getState internals fuel X db1) = fst (getState internals fuel X db2).
Proof.
  intros Hrows Hclock. destruct (dialog_sessions db2 !! X) as [row|] eqn:Hrow.
  - now rewrite (getState_on_row _ _ _ _ Hrows), (getState_on_row _ _ _ _ Hrow).
  - destruct fuel as [|fuel]; [reflexivity|].
    now rewrite (getState_on_missing _ _ _ Hrows), (getState_on_missing _ _ _ Hrow), Hclock.
Qed.

(** X4. Conversations do not interfere: [setState(Y, V)] leaves the row of
    every other id as it was, so what [getState(X)] settles to, for [X]
    other than [Y], is the same after the write as before it; and so it is
    after a [deleteState] whose keys do not include [X]. *)
Theorem other_conversation_unaffected fuel X Y V S db :
  (Y <> X ->
   dialog_sessions (snd (call (setState Y V) db)) !! X = dialog_sessions db !! X /\
   fst (getState internals fuel X (snd (call (setState Y V) db)))
   = fst (getState internals fuel X db)) /\
  (X ∉ states Y S ->
   fst (getState internals fuel X (snd (deleteState Y (Some S) db)))
   = fst (getState internals fuel X db)).
Proof.
  split.
  - intros Hne. assert (Hrow := setState_other_rows Y V db X ltac:(congruence)).
    split; [exact Hrow|].
    apply getState_outcome_local; [exact Hrow | apply setState_same_clock].
  - intros Hnot. apply getState_outcome_local; [|reflexivity].
    unfold deleteState. rewrite where_in_del_lookup. now rewrite bool_decide_eq_false_2.
Qed.

Lemma where_in_del_insert keys X row db :
  X ∈ keys ->
  where_in_del keys (with_sessions db (<[X := row]> (dialog_sessions db)))
  = where_in_del keys db.
Proof.
  intros Hin. unfold where_in_del. cbn [dialog_sessions with_sessions].
  f_equal. unfold with_sessions. cbn. f_equal.
  apply map_filter_insert_not. intros y. cbn. tauto.
Qed.

(** X6. A write that is followed by the deletion of its conversation
    leaves no trace: [deleteState(X, S)] after [setState(X, V)] settles as
    [deleteState(X, S)] alone does and gives the same database. *)
Theorem setState_then_deleteState X V S db :
  deleteState X S (snd (call (setState X V) db)) = deleteState X S db.
Proof.
  destruct (setState_cases X V) as [[_ ->] | (_ & props & _ & ->)]; [reflexivity|].
  cbn [call]. destruct (upsertState_run X props db) as (text & _ & ->). cbn [snd].
  unfold deleteState. apply where_in_del_insert. unfold states. apply list_elem_of_here.
Qed.

(** X7. A write can be retried: the same [setState(X, V)] run a second
    time, the clock not having moved, settles the same way and leaves the
    database the first run left.  On the standard backend the second run
    meets its own row and keeps the [created_on] that row has. *)
Theorem setState_retry X V db :
  call (setState X V) (snd (call (setState X V) db)) = call (setState X V) db.
Proof.
  destruct (setState_cases X V) as [[_ ->] | (_ & props & _ & ->)]; [reflexivity|].
  cbn [call].
  destruct (upsertState_run X props db) as (text & Hs & Hrun).
  rewrite Hrun. cbn [snd].
  destruct (upsertState_run X props
              (with_sessions db
                 (<[X := if isLite db
                         then mkSession X text (Some (date_now db))
                   (column_default (created_on_default db) (date_now db))
                         else match dialog_sessions db !! X with
                              | Some old =>
                                  mkSession (sid old) text (Some (date_now db)) (created_on old)
                              | None =>
                                  mkSession X text (Some (date_now db)) (Some (date_now db))
                              end]>
                    (dialog_sessions db)))) as (text2 & Hs2 & ->).
  assert (text2 = text) by congruence. subst text2.
  cbn [isLite date_now created_on_default dialog_sessions with_sessions].
  rewrite lookup_insert_eq, insert_insert_eq. f_equal. unfold with_sessions. cbn.
  f_equal. f_equal.
  destruct (isLite db); [reflexivity|].
  now destruct (dialog_sessions db !! X).
Qed.

(** X8. Under a hook that reports every session expired, [getState] never
    delivers a document: it is rejected with the key violation of the
    insert, on an existing row at once and with the database untouched, on
    a missing one after the fresh row has been inserted, which stays. *)
Theorem getState_under_expiring_hook fuel X db :
  (forall session, _isExpired internals session = true) ->
  getState internals (S (S fuel)) X db
  = (Rejected (UniqueViolation X),
     match dialog_sessions db !! X with
     | Some _ => db
     | None =>
         with_sessions db (<[X := fresh_session X (date_now db)]> (dialog_sessions db))
     end).
Proof.
  intros Hhook. destruct (dialog_sessions db !! X) as [row|] eqn:Hrow.
  - now rewrite (getState_on_row _ _ _ _ Hrow), Hhook.
  - now rewrite (getState_on_missing _ _ _ Hrow), Hhook.
Qed.

Lemma not_elem_of_states_app X S T k :
  k ∉ states X (S ++ T) <-> (k ∉ states X T) /\ (k ∉ states X S).
Proof.
  rewrite !elem_of_states. setoid_rewrite elem_of_app. split.
  - intros H. split; intros [-> | (s & Hs & ->)]; apply H; eauto.
  - intros [HT HS] [-> | (s & [Hs | Hs] & ->)]; [apply HT | apply HS | apply HT]; eauto.
Qed.

(** X9. Deletions compose: two [deleteState] calls give the same database
    in either order, and deleting the substates [S] and then the substates
    [T] of one conversation gives what one call with [S ++ T] gives. *)
Theorem deleteState_compose X Y S T db :
  deleteState Y T (snd (deleteState X S db)) = deleteState X S (snd (deleteState Y T db)) /\
  forall S1 S2,
    deleteState X (Some S2) (snd (deleteState X (Some S1) db))
    = deleteState X (Some (S1 ++ S2)) db.
Proof.
  split.
  - unfold deleteState, where_in_del. cbn [snd dialog_sessions with_sessions].
    f_equal. unfold with_sessions. cbn. f_equal. apply map_filter_comm.
  - intros S1 S2. unfold deleteState, where_in_del.
    cbn [snd dialog_sessions with_sessions].
    f_equal. unfold with_sessions. cbn. f_equal.
    rewrite map_filter_filter. apply map_filter_ext.
    intros k row _. cbn. symmetry. apply not_elem_of_states_app.
Qed.

End StoreUse.

(** ** Deleting, writing and reading in sequence *)

Section StoreSequences.
Import JSONFacts JSONImage.

(** X5. Deleting a conversation returns it to the start: after
    [deleteState(X, ...)], with any substates or none given, [getState(X)]
    inserts the session anew, a row stamped with the current time that
    holds the text of [{ "_stateId": X }], and resolves to the document
    [{ "_stateId": X }]. *)
Theorem deleteState_then_getState X substates db fuel :
  exists row,
    sid row = X /\
    created_on row = Some (date_now db) /\
    active_on row = Some (date_now db) /\
    JSON.stringify (JObject [("_stateId", JString X)]) = Some (state row) /\
    getState None (S (S fuel)) X (snd (deleteState X substates db))
    = (Resolved (JObject [("_stateId", JString X)]),
       with_sessions (snd (deleteState X substates db))
         (<[X := row]> (dialog_sessions (snd (deleteState X substates db))))).
Proof.
  assert (Hgone : dialog_sessions (snd (deleteState X substates db)) !! X = None).
  { unfold deleteState. rewrite where_in_del_lookup.
    rewrite bool_decide_eq_true_2; [reflexivity|]. unfold states. apply list_elem_of_here. }
  change (JObject [("_stateId", JString X)]) with (_createEmptyState X).
  exists (fresh_session X (date_now db)). cbn [sid created_on active_on state fresh_session].
  destruct (stringify_default X) as [Hs _].
  repeat split; try exact Hs.
  rewrite (getState_on_missing None (S fuel) X _ Hgone). reflexivity.
Qed.

(** X10. What comes back of a document that is not JSON all the way down:
    for every plain object [D] that [JSON.stringify] writes without
    calling into it (no function under [toJSON] at any depth, see
    [well_formed]), [setState(X, D)] resolves and [getState(X)] then
    resolves to [to_json D], that is [D] without the properties whose
    value is [undefined] or a function and with [null] for such elements
    of arrays, at every depth. *)
Theorem setState_getState_image X props db :
  well_formed (JObject props) = true ->
  exists db' row,
    call (setState X (JObject props)) db = (Resolved tt, db') /\
    dialog_sessions db' !! X = Some row /\
    (forall later fuel,
        dialog_sessions later !! X = Some row ->
        getState None (S fuel) X later = (Resolved (to_json (JObject props)), later)) /\
    (forall internals later fuel,
        dialog_sessions later !! X = Some row ->
        _isExpired internals row = false ->
        getState internals (S fuel) X later = (Resolved (to_json (JObject props)), later)).
Proof.
  intros Hwf.
  destruct (parse_stringify_image (JObject props) Hwf eq_refl) as (text & Hs & Hp).
  rewrite setState_plain_object. cbn [call].
  destruct (upsertState_run X props db) as (text' & Hs' & ->).
  assert (text' = text) by congruence. subst text'.
  eexists _, _. split; [reflexivity|].
  cbn [dialog_sessions with_sessions]. split; [apply lookup_insert_eq|].
  assert (Hread : forall internals later fuel row,
             state row = text ->
             dialog_sessions later !! X = Some row ->
             _isExpired internals row = false ->
             getState internals (S fuel) X later
             = (Resolved (to_json (JObject props)), later)).
  { intros internals later fuel row Htext Hrow Hhook.
    rewrite (getState_on_row internals _ _ _ _ Hrow), Hhook, Htext. now rewrite Hp. }
  split.
  - intros later fuel Hrow. eapply (Hread None later fuel); [|exact Hrow | reflexivity].
    destruct (isLite db); [reflexivity|]. now destruct (dialog_sessions db !! X).
  - intros internals later fuel Hrow Hhook. eapply (Hread internals later fuel);
      [|exact Hrow | exact Hhook].
    destruct (isLite db); [reflexivity|]. now destruct (dialog_sessions db !! X).
Qed.

Lemma effective_well_formed X V :
  well_formed V = true ->
  well_formed (if isNil V then _createEmptyState X else V) = true.
Proof.
  intros Hwf. destruct (isNil V); [|exact Hwf]. reflexivity.
Qed.

Lemma rows_parse_insert db k row :
  rows_parse db -> object_text (state row) ->
  rows_parse (with_sessions db (<[k := row]> (dialog_sessions db))).
Proof.
  intros Hdb Hrow k' row'. cbn [dialog_sessions with_sessions].
  rewrite lookup_insert. case_decide; [now intros [= <-] | apply Hdb].
Qed.

Lemma rows_parse_perform internals c db :
  call_well_formed c = true -> rows_parse db -> rows_parse (perform internals c db).
Proof.
  intros Hc Hdb. destruct c as [fuel X | X V | X substates | t]; cbn [perform].
  - destruct (dialog_sessions db !! X) as [row|] eqn:Hrow.
    + now rewrite (getState_on_row internals _ _ _ _ Hrow).
    + destruct fuel as [|fuel]; [exact Hdb|].
      rewrite (getState_on_missing internals _ _ _ Hrow). cbn [snd].
      apply rows_parse_insert; [exact Hdb|].
      cbn [state fresh_session]. destruct (stringify_default X) as [_ Hp].
      now exists (_createEmptyState X).
  - cbn [call_well_formed] in Hc.
    destruct (setState_cases X V) as [[_ ->] | (_ & props & Heff & ->)]; [exact Hdb|].
    cbn [call]. destruct (upsertState_run X props db) as (text & Hs & ->). cbn [snd].
    apply rows_parse_insert; [exact Hdb|].
    pose proof (effective_well_formed X V Hc) as Hwf. rewrite Heff in Hwf.
    destruct (parse_stringify_image (JObject props) Hwf eq_refl) as (text' & Hs' & Hp).
    assert (text' = text) by congruence. subst text'.
    assert (Hobj : object_text text) by now exists (to_json (JObject props)).
    destruct (isLite db); [exact Hobj|].
    destruct (dialog_sessions db !! X); exact Hobj.
  - intros k row. unfold deleteState, where_in_del.
    cbn [snd dialog_sessions with_sessions].
    intros Hrow%map_lookup_filter_Some_1_1. now apply (Hdb k).
  - exact Hdb.
Qed.

Lemma rows_parse_run internals calls db :
  forallb call_well_formed calls = true -> rows_parse db -> rows_parse (run internals calls db).
Proof.
  revert db. induction calls as [|c calls IH]; intros db Hcalls Hdb; [exact Hdb|].
  cbn [forallb] in Hcalls. apply andb_prop in Hcalls as [Hc Hcalls].
  cbn [run fold_left]. apply IH; [exact Hcalls|]. now apply rows_parse_perform.
Qed.

(** X11. The module can always read what it has written: after any
    sequence of [getState], [setState] and [deleteState] calls that starts
    from an empty table, on either backend and with time passing in
    between, every stored text is the text of a plain object, so
    [getState] resolves for every id, to a plain object, and never fails
    with a [SyntaxError]. *)
Theorem getState_never_fails lite default now calls X fuel :
  forallb call_well_formed calls = true ->
  rows_parse (run None calls (mkDb lite default now ∅)) /\
  exists document,
    fst (getState None (S (S fuel)) X (run None calls (mkDb lite default now ∅)))
    = Resolved document /\
    isPlainObject document = true.
Proof.
  intros Hcalls.
  assert (Hinv : rows_parse (run None calls (mkDb lite default now ∅))).
  { apply rows_parse_run; [exact Hcalls|]. intros k row Hrow.
    cbn [dialog_sessions] in Hrow. now rewrite lookup_empty in Hrow. }
  split; [exact Hinv|].
  destruct (dialog_sessions (run None calls (mkDb lite default now ∅)) !! X)
    as [row|] eqn:Hrow.
  - rewrite (getState_on_row None _ _ _ _ Hrow). cbn [fst _isExpired].
    destruct (Hinv X row Hrow) as (v & -> & Hobj). now exists v.
  - rewrite (getState_on_missing None _ _ _ Hrow). cbn [fst _isExpired].
    now exists (_createEmptyState X).
Qed.

Lemma timestamps_ordered_insert db k row t :
  timestamps_ordered db ->
  created_on row = Some t -> active_on row = Some (date_now db) ->
  (t <= date_now db)%Z ->
  timestamps_ordered (with_sessions db (<[k := row]> (dialog_sessions db))).
Proof.
  intros Hdb Hc Ha Ht k' row'. cbn [dialog_sessions with_sessions date_now].
  rewrite lookup_insert. case_decide.
  - intros [= <-]. exists t, (date_now db). repeat split; [exact Hc | exact Ha | exact Ht | lia].
  - apply Hdb.
Qed.

Lemma perform_same_backend internals c db :
  isLite (perform internals c db) = isLite db.
Proof.
  destruct c as [fuel X | X V | X substates | t]; cbn [perform]; try reflexivity.
  - destruct (dialog_sessions db !! X) as [row|] eqn:Hrow.
    + now rewrite (getState_on_row internals _ _ _ _ Hrow).
    + destruct fuel as [|fuel]; [reflexivity|].
      now rewrite (getState_on_missing internals _ _ _ Hrow).
  - destruct (setState_cases X V) as [[_ ->] | (_ & props & _ & ->)]; [reflexivity|].
    cbn [call]. now destruct (upsertState_run X props db) as (text & _ & ->).
Qed.

Lemma perform_clock internals c db :
  date_now (perform internals c db)
  = match c with Tick t => t | _ => date_now db end.
Proof.
  destruct c as [fuel X | X V | X substates | t]; cbn [perform]; try reflexivity.
  - destruct (dialog_sessions db !! X) as [row|] eqn:Hrow.
    + now rewrite (getState_on_row internals _ _ _ _ Hrow).
    + destruct fuel as [|fuel]; [reflexivity|].
      now rewrite (getState_on_missing internals _ _ _ Hrow).
  - apply setState_same_clock.
Qed.

Lemma timestamps_ordered_perform internals c db :
  isLite db = false ->
  match c with Tick t => (date_now db <= t)%Z | _ => True end ->
  timestamps_ordered db -> timestamps_ordered (perform internals c db).
Proof.
  intros Hstd Hc Hdb. destruct c as [fuel X | X V | X substates | t]; cbn [perform].
  - destruct (dialog_sessions db !! X) as [row|] eqn:Hrow.
    + now rewrite (getState_on_row internals _ _ _ _ Hrow).
    + destruct fuel as [|fuel]; [exact Hdb|].
      rewrite (getState_on_missing internals _ _ _ Hrow). cbn [snd].
      apply (timestamps_ordered_insert db X _ (date_now db)); auto; lia.
  - destruct (setState_cases X V) as [[_ ->] | (_ & props & _ & ->)]; [exact Hdb|].
    cbn [call]. destruct (upsertState_run X props db) as (text & _ & ->). cbn [snd].
    rewrite Hstd. destruct (dialog_sessions db !! X) as [old|] eqn:Hold.
    + destruct (Hdb X old Hold) as (c & a & Hc' & Ha & Hca & Han).
      apply (timestamps_ordered_insert db X _ c); auto; lia.
    + apply (timestamps_ordered_insert db X _ (date_now db)); auto; lia.
  - intros k row. unfold deleteState, where_in_del.
    cbn [snd dialog_sessions with_sessions date_now].
    intros Hrow%map_lookup_filter_Some_1_1. now apply (Hdb k).
  - intros k row Hrow. cbn [with_clock dialog_sessions date_now] in *.
    destruct (Hdb k row Hrow) as (c & a & Hc' & Ha & Hca & Han).
    exists c, a. repeat split; auto; lia.
Qed.

Lemma timestamps_ordered_run internals calls db :
  isLite db = false ->
  monotone (date_now db) calls = true ->
  timestamps_ordered db -> timestamps_ordered (run internals calls db).
Proof.
  revert db. induction calls as [|c calls IH]; intros db Hstd Hmono Hdb; [exact Hdb|].
  cbn [run fold_left]. apply IH.
  - now rewrite perform_same_backend.
  - rewrite perform_clock. destruct c; cbn [monotone] in Hmono; try exact Hmono.
    now apply andb_prop in Hmono as [_ Hmono].
  - apply timestamps_ordered_perform; [exact Hstd | | exact Hdb].
    destruct c; cbn [monotone] in Hmono; try exact I.
    apply andb_prop in Hmono as [Hle _]. now apply Z.leb_le in Hle.
Qed.

(** X12. On the standard backend the timestamps stay in order: after any
    sequence of calls that starts from an empty table, the clock never
    running backwards, every row has a [created_on] and an [active_on],
    with [created_on <= active_on] and [active_on] not past the current
    time. *)
Theorem standard_timestamps_ordered internals default now calls :
  monotone now calls = true ->
  timestamps_ordered (run internals calls (mkDb false default now ∅)).
Proof.
  intros Hmono. apply timestamps_ordered_run; [reflexivity | exact Hmono |].
  intros k row Hrow. cbn [dialog_sessions] in Hrow. now rewrite lookup_empty in Hrow.
Qed.

End StoreSequences.

Section StoreSequencesMore.
Import JSONFacts.

(** X13. [setState(X, nil)] resets a conversation: whatever the table held
    for [X], after [setState(X, null)] or [setState(X, undefined)] a
    [getState(X)] resolves to the document [{ "_stateId": X }] and changes
    nothing in the table. *)
Theorem setState_nil_resets X V db fuel :
  isNil V = true ->
  fst (call (setState X V) db) = Resolved tt /\
  getState None (S fuel) X (snd (call (setState X V) db))
  = (Resolved (JObject [("_stateId", JString X)]), snd (call (setState X V) db)).
Proof.
  intros Hnil.
  assert (Hset : setState X V = Returns (_upsertState X (_createEmptyState X)))
    by (destruct V; try discriminate Hnil; reflexivity).
  rewrite Hset. cbn [call].
  destruct (upsertState_run X [("_stateId", JString X)] db) as (text & Hs & Hrun).
  change (JObject [("_stateId", JString X)]) with (_createEmptyState X) in Hs, Hrun |- *.
  rewrite Hrun. split; [reflexivity|]. cbn [snd].
  destruct (stringify_default X) as [Hs' Hp].
  assert (text = default_text X) by congruence. subst text.
  erewrite (getState_on_row None); [| apply lookup_insert_eq].
  cbn [_isExpired]. f_equal.
  destruct (isLite db); [cbn [state]; now rewrite Hp|].
  destruct (dialog_sessions db !! X); cbn [state]; now rewrite Hp.
Qed.

(** X14. On the standard backend a row keeps its [created_on] for as long
    as it lives: no [getState], no [setState] and no passing of time
    changes the [created_on] or the [id] of a row that is in the table;
    only [deleteState] ends it. *)
Theorem standard_created_on_kept internals c db k row :
  isLite db = false ->
  dialog_sessions db !! k = Some row ->
  match c with DeleteState _ _ => False | _ => True end ->
  exists row',
    dialog_sessions (perform internals c db) !! k = Some row' /\
    created_on row' = created_on row /\
    sid row' = sid row.
Proof.
  intros Hstd Hrow Hc. destruct c as [fuel X | X V | X substates | t];
    [| | contradiction |]; cbn [perform].
  - destruct (dialog_sessions db !! X) as [session|] eqn:HX.
    + rewrite (getState_on_row internals _ _ _ _ HX). now exists row.
    + destruct fuel as [|fuel]; [now exists row|].
      rewrite (getState_on_missing internals _ _ _ HX).
      cbn [snd dialog_sessions with_sessions].
      rewrite lookup_insert_ne by congruence. now exists row.
  - destruct (decide (k = X)) as [-> | Hne].
    + destruct (setState_cases X V) as [[_ ->] | (_ & props & _ & ->)];
        [now exists row|].
      cbn [call]. destruct (upsertState_run X props db) as (text & _ & ->).
      cbn [snd dialog_sessions with_sessions]. rewrite lookup_insert_eq, Hstd, Hrow.
      eexists. split; [reflexivity|]. now split.
    + rewrite (setState_other_rows X V db k Hne). now exists row.
  - now exists row.
Qed.

(** A write of a plain object and the read that follows it. *)
Lemma write_then_read X props db fuel :
  well_formed (JObject props) = true ->
  exists db1,
    call (setState X (JObject props)) db = (Resolved tt, db1) /\
    getState None (S fuel) X db1 = (Resolved (to_json (JObject props)), db1).
Proof.
  intros Hwf.
  destruct (JSONImage.parse_stringify_image (JObject props) Hwf eq_refl)
    as (text & Hs & Hp).
  rewrite setState_plain_object. cbn [call].
  destruct (upsertState_run X props db) as (text' & Hs' & ->).
  assert (text' = text) by congruence. subst text'.
  eexists. split; [reflexivity|].
  erewrite (getState_on_row None); [| apply lookup_insert_eq].
  cbn [_isExpired]. f_equal.
  destruct (isLite db); [cbn [state]; now rewrite Hp|].
  destruct (dialog_sessions db !! X); cbn [state]; now rewrite Hp.
Qed.

(** X15. What [getState] hands back can be written back unchanged: the
    document read after [setState(X, D)], which is [to_json D], is itself
    a valid document, and [setState] of it followed by [getState] gives
    that very document again. *)
Theorem read_back_is_stable X props db fuel :
  well_formed (JObject props) = true ->
  exists db1 db2 document,
    call (setState X (JObject props)) db = (Resolved tt, db1) /\
    getState None (S fuel) X db1 = (Resolved document, db1) /\
    document = to_json (JObject props) /\
    valid_document document = true /\
    call (setState X document) db1 = (Resolved tt, db2) /\
    getState None (S fuel) X db2 = (Resolved document, db2).
Proof.
  intros Hwf.
  destruct (write_then_read X props db fuel Hwf) as (db1 & Hset1 & Hget1).
  assert (Hvalid : valid_document (to_json (JObject props)) = true).
  { unfold valid_document. rewrite (JSONImage.to_json_is_json _ Hwf). reflexivity. }
  destruct (setState_getState None X _ db1 Hvalid)
    as (db2 & row & Hset2 & Hrow & _ & Hget2).
  exists db1, db2, (to_json (JObject props)).
  repeat split; try assumption. now apply Hget2.
Qed.

End StoreSequencesMore.

(** ** The sequences on sample data *)

Lemma getState_under_expiring_hook_witness :
  (forall session, _isExpired always_expired session = true) /\
  getState always_expired 2 "conv2" (conv1_db false)
  = (Rejected (UniqueViolation "conv2"),
     match dialog_sessions (conv1_db false) !! "conv2" with
     | Some _ => conv1_db false
     | None =>
         with_sessions (conv1_db false)
           (<["conv2" := fresh_session "conv2" (date_now (conv1_db false))]>
              (dialog_sessions (conv1_db false)))
     end).
Proof.
  split; [reflexivity|].
  apply (getState_under_expiring_hook always_expired 0 "conv2" (conv1_db false)).
  reflexivity.
Defined.

Lemma setState_getState_image_witness :
  well_formed (JObject lossy_document) = true /\
  exists db' row,
    call (setState "conv1" (JObject lossy_document)) (conv1_db true) = (Resolved tt, db') /\
    dialog_sessions db' !! "conv1" = Some row /\
    (forall later fuel,
        dialog_sessions later !! "conv1" = Some row ->
        getState None (S fuel) "conv1" later
        = (Resolved (to_json (JObject lossy_document)), later)) /\
    (forall internals later fuel,
        dialog_sessions later !! "conv1" = Some row ->
        _isExpired internals row = false ->
        getState internals (S fuel) "conv1" later
        = (Resolved (to_json (JObject lossy_document)), later)).
Proof.
  split; [reflexivity|].
  apply (setState_getState_image "conv1" lossy_document (conv1_db true)). reflexivity.
Defined.

Lemma getState_never_fails_witness :
  forallb call_well_formed busy_calls = true /\
  rows_parse (run None busy_calls (mkDb true DefaultNull 20%Z ∅)) /\
  exists document,
    fst (getState None 2 "conv1" (run None busy_calls (mkDb true DefaultNull 20%Z ∅)))
    = Resolved document /\
    isPlainObject document = true.
Proof.
  split; [reflexivity|].
  apply (getState_never_fails true DefaultNull 20%Z busy_calls "conv1" 0). reflexivity.
Defined.

Lemma standard_timestamps_ordered_witness :
  monotone 20%Z sample_calls = true /\
  timestamps_ordered (run None sample_calls (mkDb false DefaultNull 20%Z ∅)).
Proof.
  split; [reflexivity|].
  apply (standard_timestamps_ordered None DefaultNull 20%Z sample_calls). reflexivity.
Defined.

Lemma setState_nil_resets_witness :
  isNil JUndefined = true /\
  fst (call (setState "conv1" JUndefined) (conv1_db false)) = Resolved tt /\
  getState None 1 "conv1" (snd (call (setState "conv1" JUndefined) (conv1_db false)))
  = (Resolved (JObject [("_stateId", JString "conv1")]),
     snd (call (setState "conv1" JUndefined) (conv1_db false))).
Proof.
  split; [reflexivity|].
  apply (setState_nil_resets "conv1" JUndefined (conv1_db false) 0). reflexivity.
Defined.

Example lossy_document_image :
  to_json (JObject lossy_document)
  = JObject [("steps", JArray [JNumber 1; JNull; JNull]);
             ("user", JObject [("name", JString "ann")])].
Proof. reflexivity. Qed.

Example sample_calls_end :
  dialog_sessions (run None sample_calls (mkDb false DefaultNull 20%Z ∅))
  = {["conv1" := fresh_session "conv1" 40%Z]}.
Proof. vm_compute. reflexivity. Qed.

Lemma standard_created_on_kept_witness :
  (isLite (conv1_db false) = false /\
   dialog_sessions (conv1_db false) !! "conv1" = Some conv1_row /\
   True) /\
  exists row',
    dialog_sessions
      (perform None (SetState "conv1" (JObject lossy_document)) (conv1_db false)) !! "conv1"
    = Some row' /\
    created_on row' = created_on conv1_row /\
    sid row' = sid conv1_row.
Proof.
  split; [repeat split|].
  apply (standard_created_on_kept None (SetState "conv1" (JObject lossy_document))
           (conv1_db false) "conv1" conv1_row); [reflexivity | reflexivity | exact I].
Defined.

Lemma read_back_is_stable_witness :
  well_formed (JObject lossy_document) = true /\
  exists db1 db2 document,
    call (setState "conv1" (JObject lossy_document)) (conv1_db true) = (Resolved tt, db1) /\
    getState None 1 "conv1" db1 = (Resolved document, db1) /\
    document = to_json (JObject lossy_document) /\
    valid_document document = true /\
    call (setState "conv1" document) db1 = (Resolved tt, db2) /\
    getState None 1 "conv1" db2 = (Resolved document, db2).
Proof.
  split; [reflexivity|].
  apply (read_back_is_stable "conv1" lossy_document (conv1_db true) 0). reflexivity.
Defined.

Lemma setState_settles_witness :
  well_formed (JObject lossy_document) = true /\
  fst (call (setState "conv1" (JObject lossy_document)) (conv1_db false))
  = (if isNil (JObject lossy_document) || isPlainObject (JObject lossy_document)
     then Resolved tt
     else Rejected (Error "State must be a plain object")) /\
  (isNil (JObject lossy_document) || isPlainObject (JObject lossy_document) = true ->
   exists row,
     dialog_sessions
       (snd (call (setState "conv1" (JObject lossy_document)) (conv1_db false))) !! "conv1"
     = Some row /\
     active_on row = Some (date_now (conv1_db false)) /\
     JSON.stringify
       (if isNil (JObject lossy_document)
        then JObject [("_stateId", JString "conv1")]
        else JObject lossy_document)
     = Some (state row) /\
     JSON.parse (state row)
     = Some (to_json (if isNil (JObject lossy_document)
                      then JObject [("_stateId", JString "conv1")]
                      else JObject lossy_document))).
Proof.
  split; [reflexivity|].
  apply (setState_settles "conv1" (JObject lossy_document) (conv1_db false)). reflexivity.
Defined.

Example busy_calls_end :
  size (dialog_sessions (run None busy_calls (mkDb true DefaultNull 20%Z ∅))) = 3 /\
  map (fun k => bool_decide
                  (is_Some (dialog_sessions
                              (run None busy_calls (mkDb true DefaultNull 20%Z ∅)) !! k)))
      ["conv1"; "conv2"; "conv1___context"; "conv3"]
  = [true; true; true; false].
Proof. vm_compute. split; reflexivity. Qed.
